(** * Compliance and notification engine of the course-management platform

    A shallow embedding of
      - models/Notification.js            (the ledger row),
      - models/index.js                   (what [require('../models')]
                                           exports, and the associations),
      - services/notificationService.js   (NotificationService),
      - routes/notifications.js           (the HTTP handlers),
      - the two notification workers that follow the error classes in
        middleware/errorHandler.js: class NotificationWorker (the ledger
        sweep and the scheduler) and the Redis-backed sweep and dispatcher
        ([checkOverdueLogs], [processNotification], [sendEmail]),
      - routes/activityTracker.js         (filing and deleting a log),
    followed by the properties of the specification that concern them.

    Conventions of the embedding.
      - A UUID is a natural number; a [Date] is a number of milliseconds
        since the epoch, as [Date.prototype.getTime] returns it.
      - A table is the list of its rows in insertion order.
      - [new Date()] is the argument [now] of the operation that reads the
        clock; one call of an operation reads one instant.
      - An [await]ed promise that rejects is a thrown exception: the
        functions that can throw return a [Completion].
      - The name [Notification] that services/notificationService.js and
        routes/notifications.js take from [require('../models')] is a
        [Models.Binding]; [Models.Notification] is the binding the index
        gives it. *)

From Stdlib Require Import String ZArith Bool Arith Lia List.
From Stdlib Require Import Sorting.Sorted DecimalString.
From Stdlib Require Import Sorting.Permutation.
Import ListNotations.

Set Implicit Arguments.

Definition UUID := nat.
Definition Date := Z.

(** ** Enumerations of models/Notification.js *)

Inductive RecipientType := manager | facilitator.
Inductive NotificationType := reminder | alert | submission | deadline.
Inductive RelatedEntityType := allocation | activity_tracker.

Definition RecipientType_eqb (a b : RecipientType) : bool :=
  match a, b with
  | manager, manager | facilitator, facilitator => true
  | _, _ => false
  end.

Definition NotificationType_eqb (a b : NotificationType) : bool :=
  match a, b with
  | reminder, reminder | alert, alert
  | submission, submission | deadline, deadline => true
  | _, _ => false
  end.

(** The JSON column [metadata]: the keys the service writes, in order.  A
    key whose value is [undefined] is not serialised. *)
Inductive Json := JUuid (u : UUID) | JString (s : string) | JNumber (z : Z).
Definition Metadata := list (string * Json).

Definition entry (k : string) (v : option Json) : Metadata :=
  match v with
  | Some j => [(k, j)]
  | None => []
  end.

(** ** Rows of the collaborating tables *)

Module CourseModule.
Record t := mk { id : UUID; name : string }.
End CourseModule.

Module Manager.
Record t := mk { id : UUID; name : string; email : option string }.
End Manager.

Module Facilitator.
(** [managerId] is the foreign key added by
    [Facilitator.belongsTo(Manager, {foreignKey: 'managerId'})]; it is
    nullable. *)
Record t := mk {
  id : UUID;
  name : string;
  email : string;
  managerId : option UUID
}.
End Facilitator.

Module CourseAllocation.
Record t := mk {
  id : UUID;
  moduleId : UUID;
  facilitatorId : UUID;
  isActive : bool;
  createdAt : Date
}.
End CourseAllocation.

Module ActivityTracker.
Record t := mk {
  id : UUID;
  allocationId : UUID;
  weekNumber : Z;
  isActive : bool
}.
End ActivityTracker.

(** ** models/Notification.js *)

Module Notification.
(** [createdAt] and [updatedAt] come from [timestamps: true]. *)
Record t := mk {
  id : UUID;
  recipientId : UUID;
  recipientType : RecipientType;
  type : NotificationType;
  title : string;
  message : string;
  relatedEntityId : option UUID;
  relatedEntityType : option RelatedEntityType;
  isRead : bool;
  isDelivered : bool;
  scheduledFor : option Date;
  deliveredAt : option Date;
  readAt : option Date;
  metadata : Metadata;
  createdAt : Date;
  updatedAt : Date
}.

(** The argument of [Notification.create]: the columns the caller gives. *)
Record spec := mkSpec {
  s_recipientId : UUID;
  s_recipientType : RecipientType;
  s_type : NotificationType;
  s_title : string;
  s_message : string;
  s_relatedEntityId : option UUID;
  s_relatedEntityType : option RelatedEntityType;
  s_scheduledFor : option Date;
  s_metadata : Metadata
}.

(** The two value sets the service passes to [Notification.update];
    Sequelize adds [updatedAt] to both. *)
Definition setRead (now : Date) (n : t) : t :=
  mk (id n) (recipientId n) (recipientType n) (type n) (title n)
     (message n) (relatedEntityId n) (relatedEntityType n)
     true (isDelivered n)
     (scheduledFor n) (deliveredAt n) (Some now)
     (metadata n) (createdAt n) now.

Definition setDelivered (now : Date) (n : t) : t :=
  mk (id n) (recipientId n) (recipientType n) (type n) (title n)
     (message n) (relatedEntityId n) (relatedEntityType n)
     (isRead n) true
     (scheduledFor n) (Some now) (readAt n)
     (metadata n) (createdAt n) now.

(** The row [Notification.create] inserts: defaults [isRead = false],
    [isDelivered = false], no [readAt], no [deliveredAt]. *)
Definition fresh (newId : UUID) (now : Date) (s : spec) : t :=
  mk newId (s_recipientId s) (s_recipientType s) (s_type s) (s_title s)
     (s_message s) (s_relatedEntityId s) (s_relatedEntityType s)
     false false
     (s_scheduledFor s) None None
     (s_metadata s) now now.
End Notification.

(** ** The database *)

Record DB := mkDB {
  modules : list CourseModule.t;
  managers : list Manager.t;
  facilitators : list Facilitator.t;
  allocations : list CourseAllocation.t;
  activityLogs : list ActivityTracker.t;
  notifications : list Notification.t;   (* the ledger *)
  nextId : UUID                          (* source of UUIDV4 defaults *)
}.

Definition withNotifications (d : DB) (l : list Notification.t) (n : UUID) : DB :=
  mkDB (modules d) (managers d) (facilitators d) (allocations d)
       (activityLogs d) l n.

(** ** The Sequelize queries the code uses *)

Module Sequelize.
(** [Model.findAll({where})]. *)
Definition findAll {A} (where_ : A -> bool) (rows : list A) : list A :=
  filter where_ rows.

(** [Model.count({where})]. *)
Definition count {A} (where_ : A -> bool) (rows : list A) : nat :=
  length (filter where_ rows).

(** [Model.findOne({where})] and [Model.findByPk]. *)
Definition findOne {A} (where_ : A -> bool) (rows : list A) : option A :=
  find where_ rows.

(** [Model.update(values, {where})]: the rows after the update and the
  number of rows the [where] clause selected, the [result[0]] of the
  callers.  (A MySQL server reports the rows it changed; that is the same
  number whenever the update changes every row it selects.) *)
Definition update {A} (values : A -> A) (where_ : A -> bool)
    (rows : list A) : list A * nat :=
  (map (fun r => if where_ r then values r else r) rows,
   length (filter where_ rows)).


End Sequelize.

(** Outcome of a function that can throw. *)
Inductive Completion (A : Type) :=
| Returned (a : A)
| Threw (error : string).
Arguments Threw {A} error.

Definition string_of_nat (n : nat) : string :=
  NilZero.string_of_uint (Nat.to_uint n).

(** ** models/index.js *)

Module Models.

(** What a name destructured from [require('../models')] is bound to: a
    model, or [undefined] when the index does not export that name. *)
Inductive Binding := Bound | Unbound.

(** The index exports [Manager], [Module], [Cohort], [Class], [Student],
    [Facilitator], [Mode], [CourseAllocation] and [ActivityTracker].  It
    does not require models/Notification.js and does not export
    [Notification]. *)
Definition Notification : Binding := Unbound.

(** The [TypeError] of [undefined.method]. *)
Definition undefinedRead (method : string) : string :=
  ("TypeError: Cannot read properties of undefined (reading '"
     ++ method ++ "')")%string.

(** [Notification.method(..)] through a binding: the method runs only
    when the name is bound to a model. *)
Definition call {A} (M : Binding) (method : string) (result : A) : Completion A :=
  match M with
  | Bound => Returned result
  | Unbound => Threw (undefinedRead method)
  end.

(** [allocation.manager] of [CourseAllocation.findByPk(id, {include:
    [.., {model: Manager, as: 'manager'}]})].  The index declares no
    association between [CourseAllocation] and [Manager], so Sequelize
    rejects the query, whatever the row. *)
Definition allocationManager (d : DB) (a : CourseAllocation.t)
    : Completion (option Manager.t) :=
  Threw "SequelizeEagerLoadingError: Manager is not associated to CourseAllocation!".

End Models.

(** ** services/notificationService.js *)

Module NotificationService.

(** The associations of an allocation.  [allocation.module] and
    [allocation.facilitator] are the rows eagerly loaded by the [include]
    of the sweep, [getFacilitator] and [getManager] load the same rows
    lazily; no sweep writes these tables, so both read the same row. *)
Definition module_of (d : DB) (a : CourseAllocation.t) : option CourseModule.t :=
  Sequelize.findOne
    (fun m => CourseModule.id m =? CourseAllocation.moduleId a) (modules d).

Definition getFacilitator (d : DB) (a : CourseAllocation.t) : option Facilitator.t :=
  Sequelize.findOne
    (fun f => Facilitator.id f =? CourseAllocation.facilitatorId a)
    (facilitators d).

Definition getManager (d : DB) (f : Facilitator.t) : option Manager.t :=
  match Facilitator.managerId f with
  | None => None
  | Some mid => Sequelize.findOne (fun m => Manager.id m =? mid) (managers d)
  end.

(** [allocation.getActivityLogs()]: every log of the allocation. *)
Definition getActivityLogs (d : DB) (a : CourseAllocation.t) : list ActivityTracker.t :=
  Sequelize.findAll
    (fun l => ActivityTracker.allocationId l =? CourseAllocation.id a)
    (activityLogs d).

Definition reminderSpec (d : DB) (a : CourseAllocation.t) : Notification.spec :=
  Notification.mkSpec
    (CourseAllocation.facilitatorId a)
    facilitator
    reminder
    "Activity Log Reminder"
    ("Please submit your activity log for allocation "
       ++ string_of_nat (CourseAllocation.id a)
       ++ ". Deadline is approaching.")%string
    (Some (CourseAllocation.id a))
    (Some allocation)
    None
    ([("allocationId"%string, JUuid (CourseAllocation.id a))]
       ++ entry "moduleName"
            (option_map (fun m => JString (CourseModule.name m)) (module_of d a))
       ++ entry "facilitatorName"
            (option_map (fun f => JString (Facilitator.name f)) (getFacilitator d a))).

(** The argument of [createNotification] in
    [sendDeadlineAlertToManagers].  Evaluating it throws a [TypeError]
    when the facilitator row is missing ([f.getManager] of null), when the
    facilitator has no manager ([manager.id] of null) or when the module
    row is missing ([allocation.module.name]). *)
Definition deadlineSpec (d : DB) (a : CourseAllocation.t)
    : Completion Notification.spec :=
  match getFacilitator d a with
  | None => Threw "TypeError: Cannot read properties of null (reading 'getManager')"
  | Some f =>
      match getManager d f with
      | None => Threw "TypeError: Cannot read properties of null (reading 'id')"
      | Some m =>
          match module_of d a with
          | None => Threw "TypeError: Cannot read properties of null (reading 'name')"
          | Some md =>
              Returned (Notification.mkSpec
                (Manager.id m)
                manager
                deadline
                "Deadline Alert"
                ("Facilitator " ++ Facilitator.name f
                   ++ " has not submitted activity log for "
                   ++ CourseModule.name md ++ ". Deadline passed.")%string
                (Some (CourseAllocation.id a))
                (Some allocation)
                None
                [("facilitatorName"%string, JString (Facilitator.name f));
                 ("moduleName"%string, JString (CourseModule.name md));
                 ("allocationId"%string, JUuid (CourseAllocation.id a))])
          end
      end
  end.

(** [order: [['createdAt', 'DESC']]]; rows of equal [createdAt], whose
    order the database leaves open, are kept in the order of the table. *)
Fixpoint insertNewestFirst (n : Notification.t) (l : list Notification.t)
    : list Notification.t :=
  match l with
  | [] => [n]
  | m :: rest =>
      if (Notification.createdAt m <=? Notification.createdAt n)%Z
      then n :: l
      else m :: insertNewestFirst n rest
  end.

Definition orderNewestFirst (l : list Notification.t) : list Notification.t :=
  fold_right insertNewestFirst [] l.

Record options := mkOptions {
  limit : nat;
  offset : nat;
  unreadOnly : bool   (* the truthiness of the value passed *)
}.

(** The defaults of the destructuring [{ limit = 50, offset = 0,
    unreadOnly = false } = options]. *)
Definition defaultOptions : options := mkOptions 50 0 false.

Section Ledger.

(** What the name [Notification] of the first line of the module is
    bound to. *)
Variable M : Models.Binding.

(** [createNotification]: [Notification.create] inside a [try] whose
    [catch] logs the error and throws it again. *)
Definition createNotification (now : Date) (s : Notification.spec) (d : DB)
    : DB * Completion Notification.t :=
  match M with
  | Models.Unbound => (d, Threw (Models.undefinedRead "create"))
  | Models.Bound =>
      let n := Notification.fresh (nextId d) now s in
      (withNotifications d (notifications d ++ [n]) (S (nextId d)), Returned n)
  end.

(** [sendReminderToFacilitators(allocations)]: one [createNotification]
    for every allocation of the argument that has no activity log; the
    first one that throws ends the call.  The ledger is not read. *)
Fixpoint sendReminderToFacilitators (now : Date)
    (allocs : list CourseAllocation.t) (d : DB)
    : DB * Completion (list Notification.t) :=
  match allocs with
  | [] => (d, Returned [])
  | a :: rest =>
      match getActivityLogs d a with
      | [] =>
          match createNotification now (reminderSpec d a) d with
          | (d1, Threw e) => (d1, Threw e)
          | (d1, Returned r) =>
              match sendReminderToFacilitators now rest d1 with
              | (d2, Returned rs) => (d2, Returned (r :: rs))
              | (d2, Threw e) => (d2, Threw e)
              end
          end
      | _ :: _ => sendReminderToFacilitators now rest d
      end
  end.

(** [sendDeadlineAlertToManagers(allocations)].  The loop has no
    [try]/[catch]: the first allocation whose argument or whose
    [createNotification] throws ends the call, and the rows inserted
    before it stay in the table. *)
Fixpoint sendDeadlineAlertToManagers (now : Date)
    (allocs : list CourseAllocation.t) (d : DB)
    : DB * Completion (list Notification.t) :=
  match allocs with
  | [] => (d, Returned [])
  | a :: rest =>
      match deadlineSpec d a with
      | Threw e => (d, Threw e)
      | Returned s =>
          match createNotification now s d with
          | (d1, Threw e) => (d1, Threw e)
          | (d1, Returned al) =>
              match sendDeadlineAlertToManagers now rest d1 with
              | (d2, Returned als) => (d2, Returned (al :: als))
              | (d2, Threw e) => (d2, Threw e)
              end
          end
      end
  end.

(** [getUserNotifications(userId, userType, options)]. *)
Definition getUserNotifications (userId : UUID) (userType : RecipientType)
    (o : options) (d : DB) : Completion (list Notification.t) :=
  let whereClause (n : Notification.t) :=
    (Notification.recipientId n =? userId)
    && RecipientType_eqb (Notification.recipientType n) userType
    && (if unreadOnly o then negb (Notification.isRead n) else true) in
  Models.call M "findAll"
    (firstn (limit o)
       (skipn (offset o)
          (orderNewestFirst (Sequelize.findAll whereClause (notifications d))))).

(** [markAsRead(notificationId, userId)]: the [where] clause has the id
    and the recipient, and no condition on [isRead]. *)
Definition markAsRead (notificationId userId : UUID) (now : Date) (d : DB)
    : DB * Completion nat :=
  match M with
  | Models.Unbound => (d, Threw (Models.undefinedRead "update"))
  | Models.Bound =>
      let (rows, affected) :=
        Sequelize.update (Notification.setRead now)
          (fun n => (Notification.id n =? notificationId)
                    && (Notification.recipientId n =? userId))
          (notifications d) in
      (withNotifications d rows (nextId d), Returned affected)
  end.

(** [markAsDelivered(notificationId)]. *)
Definition markAsDelivered (notificationId : UUID) (now : Date) (d : DB)
    : DB * Completion nat :=
  match M with
  | Models.Unbound => (d, Threw (Models.undefinedRead "update"))
  | Models.Bound =>
      let (rows, affected) :=
        Sequelize.update (Notification.setDelivered now)
          (fun n => Notification.id n =? notificationId)
          (notifications d) in
      (withNotifications d rows (nextId d), Returned affected)
  end.

(** [getUnreadCount(userId, userType)]. *)
Definition getUnreadCount (userId : UUID) (userType : RecipientType) (d : DB)
    : Completion nat :=
  Models.call M "count"
    (Sequelize.count
       (fun n => (Notification.recipientId n =? userId)
                 && RecipientType_eqb (Notification.recipientType n) userType
                 && negb (Notification.isRead n))
       (notifications d)).

End Ledger.

End NotificationService.

(** ** routes/notifications.js *)

Module Routes.

(** [req.user], set by [authenticateToken]. *)
Record User := mkUser { id : UUID; role : RecipientType }.

(** A raw query value: the decimal text of an integer, or other text. *)
Inductive QueryValue := QInt (z : Z) | QText (s : string).

Record ListQuery := mkListQuery {
  q_limit : option QueryValue;
  q_offset : option QueryValue;
  q_unreadOnly : option string
}.

Inductive Response (A : Type) :=
| Json200 (body : A)
| Status (code : nat) (message : string).
Arguments Status {A} code message.

(** [query(..).optional().isInt({min, max})]. *)
Definition isInt (min : Z) (max : option Z) (v : QueryValue) : bool :=
  match v with
  | QInt z =>
      (min <=? z)%Z && match max with Some m => (z <=? m)%Z | None => true end
  | QText _ => false
  end.

(** [isBoolean()] of express-validator. *)
Definition isBoolean (s : string) : bool :=
  (s =? "true")%string || (s =? "false")%string
  || (s =? "1")%string || (s =? "0")%string.

Definition optional {A} (check : A -> bool) (v : option A) : bool :=
  match v with
  | None => true
  | Some x => check x
  end.

(** The validation chain of [GET /] followed by [validateRequest]. *)
Definition validListQuery (q : ListQuery) : bool :=
  optional (isInt 1 (Some 100%Z)) (q_limit q)
  && optional (isInt 0 None) (q_offset q)
  && optional isBoolean (q_unreadOnly q).

(** [parseInt] of a value, with the default of the destructuring (exact
    up to 2^53; the source rounds larger integers to a double). *)
Definition parseInt (default : Z) (v : option QueryValue) : Z :=
  match v with
  | Some (QInt z) => z
  | _ => default
  end.

(** Truthiness of [unreadOnly]: [false] when absent, a string otherwise,
    and a string is truthy unless it is empty. *)
Definition truthy (v : option string) : bool :=
  match v with
  | None => false
  | Some s => negb (s =? "")%string
  end.

Record Pagination := mkPagination {
  p_limit : Z;
  p_offset : Z;
  p_total : nat;
  p_unreadCount : nat
}.

Record Listing := mkListing {
  l_notifications : list Notification.t;
  l_pagination : Pagination
}.


(** The handlers reach [Notification] through
    services/notificationService.js and, in [PUT /read-all], through a
    [require('../models')] of their own: in both places the name is the
    binding of the index. *)

(** [router.get('/')]: 400 from [validateRequest]; inside the [try] the
    two service calls, whose errors the [catch] answers with 500. *)
Definition listNotifications (user : User) (q : ListQuery) (d : DB)
    : Response Listing :=
  if validListQuery q then
    let limit := parseInt 50 (q_limit q) in
    let offset := parseInt 0 (q_offset q) in
    match NotificationService.getUserNotifications Models.Notification
            (id user) (role user)
            (NotificationService.mkOptions (Z.to_nat limit) (Z.to_nat offset)
               (truthy (q_unreadOnly q))) d with
    | Threw _ => Status 500 "Failed to get notifications"
    | Returned notifications =>
        match NotificationService.getUnreadCount Models.Notification
                (id user) (role user) d with
        | Threw _ => Status 500 "Failed to get notifications"
        | Returned unreadCount =>
            Json200 (mkListing notifications
                       (mkPagination limit offset (length notifications)
                          unreadCount))
        end
    end
  else Status 400 "Validation error".

(** [router.put('/:id/read')], for an id that passed [isUUID()]: 404 when
    [result[0] === 0], 500 from the [catch]. *)
Definition markRead (user : User) (notificationId : UUID) (now : Date) (d : DB)
    : DB * Response string :=
  match NotificationService.markAsRead Models.Notification notificationId (id user)
          now d with
  | (d', Threw _) => (d', Status 500 "Failed to mark notification as read")
  | (d', Returned O) => (d', Status 404 "Notification not found or already read")
  | (d', Returned (S _)) => (d', Json200 "Notification marked as read"%string)
  end.

(** The [Notification.update] of [router.put('/read-all')]: the [where]
    clause has the recipient and [isRead: false]. *)
Definition markAllRead (user : User) (now : Date) (d : DB)
    : DB * Completion nat :=
  match Models.Notification with
  | Models.Unbound => (d, Threw (Models.undefinedRead "update"))
  | Models.Bound =>
      let (rows, affected) :=
        Sequelize.update (Notification.setRead now)
          (fun n => (Notification.recipientId n =? id user)
                    && RecipientType_eqb (Notification.recipientType n) (role user)
                    && negb (Notification.isRead n))
          (notifications d) in
      (withNotifications d rows (nextId d), Returned affected)
  end.

(** [router.put('/read-all')]. *)
Definition readAll (user : User) (now : Date) (d : DB) : DB * Response string :=
  match markAllRead user now d with
  | (d', Threw _) => (d', Status 500 "Failed to mark notifications as read")
  | (d', Returned affected) =>
      (d', Json200 (string_of_nat affected ++ " notifications marked as read")%string)
  end.

(** [router.get('/unread-count')]. *)
Definition unreadCount (user : User) (d : DB) : Response nat :=
  match NotificationService.getUnreadCount Models.Notification (id user) (role user) d with
  | Threw _ => Status 500 "Failed to get unread count"
  | Returned c => Json200 c
  end.

End Routes.

(** ** class NotificationWorker: the ledger sweep and its scheduler *)

Module NotificationWorker.

(** Lines the worker writes to the console (the lines that
    [NotificationService.createNotification] writes, for a row or for an
    error, are left out). *)
Inductive Console :=
| AlreadyRunning                 (* warning of [start] *)
| Starting
| NotRunning                     (* warning of [stop] *)
| Stopped
| Checking
| SendingReminders (n : nat)
| SendingDeadlineAlerts (n : nat)
| CheckCompleted
| WorkerError (error : string)   (* the [catch] of the sweep *)
| SignalReceived (name : string)
| ManualCheck.

Definition sevenDays : Z := 7 * 24 * 60 * 60 * 1000.

Definition isEmpty {A} (l : list A) : bool :=
  match l with [] => true | _ :: _ => false end.

(** [CourseAllocation.findAll({where: {isActive: true}})]. *)
Definition activeAllocations (d : DB) : list CourseAllocation.t :=
  Sequelize.findAll CourseAllocation.isActive (allocations d).

(** The allocations the first loop collects: no active activity log. *)
Definition facilitatorsWithoutLogs (d : DB) : list CourseAllocation.t :=
  filter
    (fun a =>
       isEmpty (Sequelize.findAll
                  (fun l => (ActivityTracker.allocationId l =? CourseAllocation.id a)
                            && ActivityTracker.isActive l)
                  (activityLogs d)))
    (activeAllocations d).

(** [allocation.createdAt < oneWeekAgo], with [oneWeekAgo] seven days
    before [now]. *)
Definition overdueAllocations (now : Date) (d : DB) : list CourseAllocation.t :=
  filter (fun a => (CourseAllocation.createdAt a <? now - sevenDays)%Z)
         (activeAllocations d).


(** [checkForNotifications()]: the body of the [try] and its [catch].
    [M] is the binding of [Notification] in the service the sweep calls.
    An error thrown while the reminders are sent ends the [try] before
    the deadline alerts are looked at. *)
Definition checkForNotifications (M : Models.Binding) (now : Date) (d : DB)
    : DB * list Console :=
  let without := facilitatorsWithoutLogs d in
  let reminders : DB * list Console * option string :=
    match without with
    | [] => (d, [], None)
    | _ :: _ =>
        match NotificationService.sendReminderToFacilitators M now without d with
        | (d1, Returned _) => (d1, [SendingReminders (length without)], None)
        | (d1, Threw e) => (d1, [SendingReminders (length without)], Some e)
        end
    end in
  match reminders with
  | (d1, c1, Some e) => (d1, [Checking] ++ c1 ++ [WorkerError e])
  | (d1, c1, None) =>
      let overdue := overdueAllocations now d in
      match overdue with
      | [] => (d1, [Checking] ++ c1 ++ [CheckCompleted])
      | _ :: _ =>
          match NotificationService.sendDeadlineAlertToManagers M now overdue d1 with
          | (d2, Returned _) =>
              (d2, [Checking] ++ c1
                     ++ [SendingDeadlineAlerts (length overdue); CheckCompleted])
          | (d2, Threw e) =>
              (d2, [Checking] ++ c1
                     ++ [SendingDeadlineAlerts (length overdue); WorkerError e])
          end
      end
  end.

(** The worker object and what of the process it acts on: the interval
    timers of the event loop, the calls of [start] that wait for their
    first sweep, the console and the database. *)
Record State := mkState {
  isRunning : bool;
  checkInterval : Z;
  interval : option nat;     (* [this.interval], a timer handle *)
  timers : list nat;         (* the active interval timers *)
  nextTimer : nat;
  starting : nat;            (* calls of [start] not yet resumed *)
  console : list Console;
  db : DB
}.

(** [new NotificationWorker()]. *)
Definition create (d : DB) : State :=
  mkState false (5 * 60 * 1000) None [] 0 0 [] d.

Definition log (c : list Console) (s : State) : State :=
  mkState (isRunning s) (checkInterval s) (interval s) (timers s)
          (nextTimer s) (starting s) (console s ++ c) (db s).

(** A sweep of the worker of the program, whose service takes
    [Notification] from the index. *)
Definition sweep (now : Date) (s : State) : State :=
  let (d, c) := checkForNotifications Models.Notification now (db s) in
  mkState (isRunning s) (checkInterval s) (interval s) (timers s)
          (nextTimer s) (starting s) (console s ++ c) d.

(** [start()] runs in two turns of the event loop.  The first turn goes
    up to the first [await] inside the sweep it calls: the warning when
    the worker runs already; otherwise the flag, the console line and the
    first line of the sweep, after which the call waits. *)
Definition startCall (s : State) : State :=
  if isRunning s then log [AlreadyRunning] s
  else
    mkState true (checkInterval s) (interval s) (timers s)
            (nextTimer s) (S (starting s))
            (console s ++ [Starting; Checking]) (db s).

(** The second turn, of a call that waits: the rest of the sweep, from
    its first [await] on, and [this.interval = setInterval(...)].  The
    flag [isRunning] is not looked at again. *)
Definition startResume (now : Date) (s : State) : State :=
  match starting s with
  | O => s
  | S waiting =>
      let (d, c) := checkForNotifications Models.Notification now (db s) in
      mkState (isRunning s) (checkInterval s) (Some (nextTimer s))
              (nextTimer s :: timers s) (S (nextTimer s)) waiting
              (console s ++ tl c) d
  end.

(** [start()], when nothing else runs between its two turns. *)
Definition start (now : Date) (s : State) : State :=
  if isRunning s then startCall s
  else startResume now (startCall s).

(** [clearInterval(handle)]. *)
Definition clearInterval (h : nat) (l : list nat) : list nat :=
  filter (fun t => negb (t =? h)) l.

(** [stop()]. *)
Definition stop (s : State) : State :=
  if negb (isRunning s) then log [NotRunning] s
  else
    mkState false (checkInterval s) (interval s)
            (match interval s with
             | Some h => clearInterval h (timers s)
             | None => timers s
             end)
            (nextTimer s) (starting s) (console s ++ [Stopped]) (db s).

(** [triggerNotificationCheck()]. *)
Definition triggerNotificationCheck (now : Date) (s : State) : State :=
  sweep now (log [ManualCheck] s).

(** What can happen to the worker.  A call of [start] is two events,
    [StartCall] and the [StartResume] that follows it at some later turn
    of the event loop; other events can come in between.  Every other
    event is taken as one turn. *)
Inductive Event :=
| StartCall
| StartResume (now : Date)
| Stop
| SIGTERM
| SIGINT
| Tick (handle : nat) (now : Date)   (* an interval timer fires *)
| Trigger (now : Date).

Definition step (s : State) (e : Event) : State :=
  match e with
  | StartCall => startCall s
  | StartResume now => startResume now s
  | Stop => stop s
  | SIGTERM => stop (log [SignalReceived "SIGTERM"] s)
  | SIGINT => stop (log [SignalReceived "SIGINT"] s)
  | Tick h now => if existsb (Nat.eqb h) (timers s) then sweep now s else s
  | Trigger now => triggerNotificationCheck now s
  end.

Definition run (s : State) (es : list Event) : State := fold_left step es s.

End NotificationWorker.

(** ** The calendar arithmetic of [Date] (ECMAScript, time values) *)

Module JSDate.

Local Open Scope Z_scope.

Definition msPerDay : Z := 86400000.

(** [DayFromYear(y)] and [TimeFromYear(y)] of the language definition. *)
Definition DayFromYear (y : Z) : Z :=
  365 * (y - 1970) + (y - 1969) / 4 - (y - 1901) / 100 + (y - 1601) / 400.

Definition TimeFromYear (y : Z) : Z := msPerDay * DayFromYear y.

(** [YearFromTime(t)]: the largest [y] with [TimeFromYear y <= t], from
    an estimate that is off by at most one. *)
Definition YearFromTime (t : Z) : Z :=
  let y := 1970 + (400 * (t / msPerDay)) / 146097 in
  if t <? TimeFromYear y then y - 1
  else if TimeFromYear (y + 1) <=? t then y + 1
  else y.

(** The year the constructor [new Date(year, month, day)] takes for its
    first argument: a year from 0 to 99 stands for 1900 to 1999. *)
Definition fullYear (year : Z) : Z :=
  if (0 <=? year) && (year <=? 99) then 1900 + year else year.

(** [new Date(now.getFullYear(), 0, 1)] on a host whose local time is
  [tz] milliseconds ahead of UTC (a fixed offset: no daylight saving). *)
Definition startOfYear (tz : Z) (now : Date) : Date :=
  TimeFromYear (fullYear (YearFromTime (now + tz))) - tz.

(** [Math.ceil(a / b)] for integers [a] and [b > 0] of this size, where
    the floating-point quotient rounds to the same integer. *)
Definition ceilDiv (a b : Z) : Z := - ((- a) / b).

End JSDate.

(** ** The Redis-backed worker: sweep, queue and dispatcher *)

Module RedisWorker.

Inductive IntentType :=
| ACTIVITY_LOG_CREATED
| ACTIVITY_LOG_UPDATED
| REMINDER_FACILITATOR
| ALERT_MANAGER
| OTHER (name : string).

(** The object that is serialised onto the list ["notifications"]. *)
Record Intent := mkIntent {
  type : IntentType;
  facilitatorId : UUID;
  facilitatorName : option string;
  allocationId : UUID;
  weekNumber : Z;
  timestamp : Date
}.

(** The Redis list: [lpush] adds at the head, [rpop] takes the last. *)
Definition lpush (i : Intent) (q : list Intent) : list Intent := i :: q.

Definition rpop (q : list Intent) : option Intent * list Intent :=
  match rev q with
  | [] => (None, q)
  | i :: r => (Some i, rev r)
  end.

Definition weekMs : Z := 7 * 24 * 60 * 60 * 1000.

(** [currentWeek] of [checkOverdueLogs]. *)
Definition currentWeek (tz : Z) (now : Date) : Z :=
  JSDate.ceilDiv (now - JSDate.startOfYear tz now)%Z weekMs.

(** [ActivityTracker.findOne] of the loop. *)
Definition activityLog (d : DB) (a : CourseAllocation.t) (week : Z)
    : option ActivityTracker.t :=
  Sequelize.findOne
    (fun l => (ActivityTracker.allocationId l =? CourseAllocation.id a)
              && (ActivityTracker.weekNumber l =? week)%Z
              && ActivityTracker.isActive l)
    (activityLogs d).

(** One turn of the loop of [checkOverdueLogs]. *)
Definition checkAllocation (d : DB) (week : Z) (now : Date)
    (q : list Intent) (a : CourseAllocation.t) : list Intent :=
  match activityLog d a week with
  | Some _ => q
  | None =>
      let q1 :=
        lpush (mkIntent REMINDER_FACILITATOR (CourseAllocation.facilitatorId a)
                        None (CourseAllocation.id a) week now) q in
      if (2 <? week)%Z then
        lpush (mkIntent ALERT_MANAGER (CourseAllocation.facilitatorId a)
                        None (CourseAllocation.id a) week now) q1
      else q1
  end.

(** The sweep at a given week number. *)
Definition sweepWeek (d : DB) (week : Z) (now : Date) (q : list Intent)
    : list Intent :=
  fold_left (checkAllocation d week now)
            (Sequelize.findAll CourseAllocation.isActive (allocations d)) q.

(** [checkOverdueLogs()]. *)
Definition checkOverdueLogs (tz : Z) (now : Date) (d : DB) (q : list Intent)
    : list Intent :=
  sweepWeek d (currentWeek tz now) now q.

Inductive Template :=
| activityLogCreated | activityLogUpdated | reminderFacilitator | alertManager.

Definition subject (t : Template) : string :=
  match t with
  | activityLogCreated => "New Activity Log Submitted"
  | activityLogUpdated => "Activity Log Updated"
  | reminderFacilitator => "Activity Log Reminder"
  | alertManager => "Activity Log Overdue Alert"
  end.

(** [mailOptions]; the html body is the template applied to the three
    values, kept as these values. *)
Record MailOptions := mkMail {
  to : string;
  template : Template;
  m_facilitatorName : option string;
  m_moduleName : string;
  m_weekNumber : Z
}.

Inductive Console :=
| EmailSent (to : string) (messageId : string)
| EmailFailed (to : string)
| UnknownType (name : string)
| AllocationNotFound (allocationId : UUID)
| FacilitatorNotFound (facilitatorId : UUID)
| Processed (t : IntentType) (week : Z)
| HandlerError (t : IntentType) (error : string).

(** What the dispatcher acts on. *)
Record World := mkWorld {
  db : DB;
  queue : list Intent;
  delivered : list MailOptions;   (* accepted by the mail relay *)
  console : list Console
}.

Section Dispatcher.

(** [createTransporter()] and [transporter.sendMail(mailOptions)] of
    nodemailer: the message id, or [None] when one of them throws. *)
Variable sendMail : MailOptions -> option string.

(** [allocation.manager] of [CourseAllocation.findByPk(id, {include:
    [.., {model: Manager, as: 'manager'}]})]: the row the query loads, or
    the error of the query.  The handlers are written against any such
    query; the one the index gives them is [Models.allocationManager]. *)
Variable manager_of : DB -> CourseAllocation.t -> Completion (option Manager.t).

(** What a handler did: mails the relay accepted, console lines. *)
Definition Effect : Type := list MailOptions * list Console.

(** [sendEmail(to, template, data)]: never throws; its result is not
    read by any caller. *)
Definition sendEmail (m : MailOptions) : Effect :=
  match sendMail m with
  | Some messageId => ([m], [EmailSent (to m) messageId])
  | None => ([], [EmailFailed (to m)])
  end.

Definition findAllocation (d : DB) (i : Intent) : option CourseAllocation.t :=
  Sequelize.findOne (fun a => CourseAllocation.id a =? allocationId i)
                    (allocations d).

Definition findFacilitator (d : DB) (i : Intent) : option Facilitator.t :=
  Sequelize.findOne (fun f => Facilitator.id f =? facilitatorId i)
                    (facilitators d).

Definition nullName : string :=
  "TypeError: Cannot read properties of null (reading 'name')".

(** The three handlers that write to the manager.  [name] is the
    facilitator name each of them passes to the template: the name of
    the intent for a created log, [facilitator.name] of the row for the
    two others, a [TypeError] when that row is missing.  (A query that
    Sequelize rejects for its [include] is rejected before the row is
    looked for: the console line of a missing allocation is then the
    error line; no mail is sent either way.) *)
Definition toManager (t : IntentType) (tpl : Template)
    (name : Completion (option string)) (d : DB) (i : Intent) : Effect :=
  match findAllocation d i with
  | None => ([], [AllocationNotFound (allocationId i)])
  | Some a =>
      match manager_of d a with
      | Threw e => ([], [HandlerError t e])
      | Returned None => ([], [Processed t (weekNumber i)])
      | Returned (Some m) =>
          match Manager.email m with
          | None => ([], [Processed t (weekNumber i)])
          | Some address =>
              match name, NotificationService.module_of d a with
              | Threw e, _ => ([], [HandlerError t e])
              | Returned _, None => ([], [HandlerError t nullName])
              | Returned nm, Some md =>
                  let (mails, c) :=
                    sendEmail (mkMail address tpl nm (CourseModule.name md)
                                      (weekNumber i)) in
                  (mails, c ++ [Processed t (weekNumber i)])
              end
          end
      end
  end.

Definition facilitatorNameOf (d : DB) (i : Intent) : Completion (option string) :=
  match findFacilitator d i with
  | Some f => Returned (Some (Facilitator.name f))
  | None => Threw nullName
  end.

Definition handleActivityLogCreated (d : DB) (i : Intent) : Effect :=
  toManager ACTIVITY_LOG_CREATED activityLogCreated
            (Returned (facilitatorName i)) d i.

Definition handleActivityLogUpdated (d : DB) (i : Intent) : Effect :=
  toManager ACTIVITY_LOG_UPDATED activityLogUpdated (facilitatorNameOf d i) d i.

Definition handleAlertManager (d : DB) (i : Intent) : Effect :=
  toManager ALERT_MANAGER alertManager (facilitatorNameOf d i) d i.

Definition handleReminderFacilitator (d : DB) (i : Intent) : Effect :=
  match findFacilitator d i with
  | None => ([], [FacilitatorNotFound (facilitatorId i)])
  | Some f =>
      match findAllocation d i with
      | None => ([], [AllocationNotFound (allocationId i)])
      | Some a =>
          match NotificationService.module_of d a with
          | None => ([], [HandlerError REMINDER_FACILITATOR nullName])
          | Some md =>
              let (mails, c) :=
                sendEmail (mkMail (Facilitator.email f) reminderFacilitator
                                  (Some (Facilitator.name f))
                                  (CourseModule.name md) (weekNumber i)) in
              (mails, c ++ [Processed REMINDER_FACILITATOR (weekNumber i)])
          end
      end
  end.

(** [processNotification(notification)]. *)
Definition processNotification (d : DB) (i : Intent) : Effect :=
  match type i with
  | ACTIVITY_LOG_CREATED => handleActivityLogCreated d i
  | ACTIVITY_LOG_UPDATED => handleActivityLogUpdated d i
  | REMINDER_FACILITATOR => handleReminderFacilitator d i
  | ALERT_MANAGER => handleAlertManager d i
  | OTHER name => ([], [UnknownType name])
  end.

(** The callback of the 30-second interval: [rpop], then
    [processNotification]; nothing is pushed back and no row of the
    database is written. *)
Definition drainTick (w : World) : World :=
  match rpop (queue w) with
  | (None, _) => w
  | (Some i, rest) =>
      let (mails, c) := processNotification (db w) i in
      mkWorld (db w) rest (delivered w ++ mails) (console w ++ c)
  end.

End Dispatcher.

End RedisWorker.

(** ** middleware/errorHandler.js: the error middleware *)

Module ErrorHandler.

(** An entry of [err.errors]; the same three fields are what the reply
    carries. *)
Record FieldError := mkFieldError {
  path : string;
  fieldMessage : string;
  value : string
}.

(** The fields of the thrown error the middleware reads.  [message] is
    the empty string when the error was built without one. *)
Record Err := mkErr {
  name : string;
  message : string;
  statusCode : option nat;
  errors : list FieldError;
  stack : string
}.

(** The three custom classes: [super(message)], then [this.name]. *)
Definition ValidationError (message stack : string) : Err :=
  mkErr "ValidationError" message None [] stack.

Definition NotFoundError (message stack : string) : Err :=
  mkErr "NotFoundError" message None [] stack.

Definition AuthorizationError (message stack : string) : Err :=
  mkErr "AuthorizationError" message None [] stack.

(** [res.status(..).json(..)]; [success] is false in every branch. *)
Record Reply := mkReply {
  status : nat;
  success : bool;
  replyMessage : string;
  replyErrors : option (list FieldError);
  replyStack : option string
}.

(** [a || b] on strings and on status codes. *)
Definition orString (a b : string) : string :=
  if (a =? "")%string then b else a.

Definition orStatus (a : option nat) (b : nat) : nat :=
  match a with
  | Some 0 | None => b
  | Some c => c
  end.

(** [errorHandler(err, req, res, next)], with [process.env.NODE_ENV]. *)
Definition errorHandler (nodeEnv : option string) (err : Err) : Reply :=
  if (name err =? "SequelizeValidationError")%string then
    mkReply 400 false "Validation error" (Some (errors err)) None
  else if (name err =? "SequelizeUniqueConstraintError")%string then
    mkReply 409 false "Duplicate entry"
      (Some (map (fun e => mkFieldError (path e)
                             (path e ++ " already exists")%string (value e))
                 (errors err)))
      None
  else if (name err =? "SequelizeForeignKeyConstraintError")%string then
    mkReply 400 false "Referenced record does not exist" None None
  else if (name err =? "JsonWebTokenError")%string then
    mkReply 401 false "Invalid token" None None
  else if (name err =? "TokenExpiredError")%string then
    mkReply 401 false "Token expired" None None
  else if (name err =? "ValidationError")%string then
    mkReply 400 false (message err) None None
  else if (name err =? "NotFoundError")%string then
    mkReply 404 false (orString (message err) "Resource not found") None None
  else if (name err =? "AuthorizationError")%string then
    mkReply 403 false (orString (message err) "Access denied") None None
  else
    mkReply (orStatus (statusCode err) 500) false
      (orString (message err) "Internal server error") None
      (match nodeEnv with
       | Some env => if (env =? "development")%string
                     then Some (stack err) else None
       | None => None
       end).

End ErrorHandler.

(** ** [sendSubmissionAlertToManager] of services/notificationService.js *)

Module SubmissionAlert.

Definition nullRead (property : string) : string :=
  ("TypeError: Cannot read properties of null (reading '" ++ property ++ "')")%string.

(** [activityLog.getAllocation({include: ..})]: the allocation row of the
    log, active or not. *)
Definition getAllocation (d : DB) (l : ActivityTracker.t) : option CourseAllocation.t :=
  Sequelize.findOne
    (fun a => CourseAllocation.id a =? ActivityTracker.allocationId l)
    (allocations d).

(** The argument of [createNotification]; building it throws when the
    allocation, its facilitator, the manager of the facilitator or the
    module is missing. *)
Definition submissionSpec (d : DB) (l : ActivityTracker.t)
    : Completion Notification.spec :=
  match getAllocation d l with
  | None => Threw (nullRead "getFacilitator")
  | Some a =>
      match NotificationService.getFacilitator d a with
      | None => Threw (nullRead "getManager")
      | Some f =>
          match NotificationService.getManager d f with
          | None => Threw (nullRead "id")
          | Some m =>
              match NotificationService.module_of d a with
              | None => Threw (nullRead "name")
              | Some md =>
                  Returned (Notification.mkSpec
                    (Manager.id m)
                    manager
                    submission
                    "Activity Log Submitted"
                    (Facilitator.name f ++ " has submitted activity log for "
                       ++ CourseModule.name md)%string
                    (Some (ActivityTracker.id l))
                    (Some activity_tracker)
                    None
                    [("facilitatorName"%string, JString (Facilitator.name f));
                     ("moduleName"%string, JString (CourseModule.name md));
                     ("allocationId"%string, JUuid (CourseAllocation.id a))])
              end
          end
      end
  end.


(** [sendSubmissionAlertToManager(activityLog)], of the service of the
    program, whose [Notification] is the binding of the index. *)
Definition sendSubmissionAlertToManager (now : Date) (l : ActivityTracker.t)
    (d : DB) : DB * Completion Notification.t :=
  match submissionSpec d l with
  | Threw e => (d, Threw e)
  | Returned s =>
      NotificationService.createNotification Models.Notification now s d
  end.

End SubmissionAlert.

(** ** routes/activityTracker.js: creating and deleting a log *)

Module ActivityRoutes.

(** A value of [req.body]. *)
Inductive BodyValue :=
| BUuid (u : UUID)       (* a string that is a UUID *)
| BInt (z : Z)           (* an integer *)
| BString (s : string)   (* any other string *)
| BArray
| BOther.

Record Body := mkBody {
  allocationId : option BodyValue;
  weekNumber : option BodyValue;
  attendance : option BodyValue;
  formativeOneGrading : option BodyValue;
  formativeTwoGrading : option BodyValue;
  summativeGrading : option BodyValue;
  courseModeration : option BodyValue;
  intranetSync : option BodyValue;
  gradeBookStatus : option BodyValue;
  notes : option BodyValue
}.

Inductive Reply :=
| Created (log : option ActivityTracker.t)   (* 201, with the row read back *)
| Deleted                                    (* 200 *)
| Failed (code : nat) (message : string).

(** A required field: absent fails. *)
Definition required (check : BodyValue -> bool) (v : option BodyValue) : bool :=
  match v with
  | Some x => check x
  | None => false
  end.

Definition isUUID (v : BodyValue) : bool :=
  match v with BUuid _ => true | _ => false end.

Definition isInt (min max : Z) (v : BodyValue) : bool :=
  match v with
  | BInt z => (min <=? z)%Z && (z <=? max)%Z
  | _ => false
  end.

Definition isArray (v : BodyValue) : bool :=
  match v with BArray => true | _ => false end.

Definition isString (v : BodyValue) : bool :=
  match v with BString _ | BUuid _ => true | _ => false end.

(** [isIn(['Done', 'Pending', 'Not Started'])]. *)
Definition isStatus (v : BodyValue) : bool :=
  match v with
  | BString s =>
      (s =? "Done")%string || (s =? "Pending")%string
      || (s =? "Not Started")%string
  | _ => false
  end.

(** The validation chain of [POST /]. *)
Definition validBody (b : Body) : bool :=
  required isUUID (allocationId b)
  && required (isInt 1 52) (weekNumber b)
  && Routes.optional isArray (attendance b)
  && Routes.optional isStatus (formativeOneGrading b)
  && Routes.optional isStatus (formativeTwoGrading b)
  && Routes.optional isStatus (summativeGrading b)
  && Routes.optional isStatus (courseModeration b)
  && Routes.optional isStatus (intranetSync b)
  && Routes.optional isStatus (gradeBookStatus b)
  && Routes.optional isString (notes b).

Definition withActivityLogs (d : DB) (l : list ActivityTracker.t) (n : UUID) : DB :=
  mkDB (modules d) (managers d) (facilitators d) (allocations d)
       l (notifications d) n.

(** [ActivityTracker.create]: the unique index on
    [(allocation_id, week_number)] rejects a second row of the pair,
    active or not. *)
Definition create (aid : UUID) (week : Z) (d : DB)
    : DB * Completion ActivityTracker.t :=
  if existsb (fun l => (ActivityTracker.allocationId l =? aid)
                       && (ActivityTracker.weekNumber l =? week)%Z)
             (activityLogs d)
  then (d, Threw "SequelizeUniqueConstraintError")
  else
    let l := ActivityTracker.mk (nextId d) aid week true in
    (withActivityLogs d (activityLogs d ++ [l]) (S (nextId d)), Returned l).

(** The handler of [POST /] behind [authorizeFacilitator].  The columns
    of the log other than the allocation, the week and [isActive] are
    stored and not read again by anything here. *)
Definition createActivityLog (user : Routes.User) (b : Body) (now : Date)
    (d : DB) : DB * Reply :=
  match Routes.role user with
  | manager => (d, Failed 403 "Access denied. Facilitator role required.")
  | facilitator =>
      if negb (validBody b) then (d, Failed 400 "Validation error")
      else
        match allocationId b, weekNumber b with
        | Some (BUuid aid), Some (BInt week) =>
            match Sequelize.findOne
                    (fun a => (CourseAllocation.id a =? aid)
                              && CourseAllocation.isActive a)
                    (allocations d) with
            | None => (d, Failed 404 "Allocation not found")
            | Some a =>
                if negb (CourseAllocation.facilitatorId a =? Routes.id user)
                then (d, Failed 403
                       "Access denied. You can only create logs for your own allocations.")
                else
                  match Sequelize.findOne
                          (fun l => (ActivityTracker.allocationId l =? aid)
                                    && (ActivityTracker.weekNumber l =? week)%Z
                                    && ActivityTracker.isActive l)
                          (activityLogs d) with
                  | Some _ =>
                      (d, Failed 409
                         "Activity log already exists for this allocation and week")
                  | None =>
                      match create aid week d with
                      | (d1, Threw _) => (d1, Failed 500 "Internal server error")
                      | (d1, Returned l) =>
                          (* try { sendSubmissionAlertToManager } catch { log } *)
                          let (d2, _) :=
                            SubmissionAlert.sendSubmissionAlertToManager now l d1 in
                          (d2, Created
                                 (Sequelize.findOne
                                    (fun r => ActivityTracker.id r
                                              =? ActivityTracker.id l)
                                    (activityLogs d2)))
                      end
                  end
            end
        | _, _ => (d, Failed 400 "Validation error")
        end
  end.

(** The handler of [DELETE /:id] behind [authorizeManager]: a soft
    delete. *)
Definition deleteActivityLog (user : Routes.User) (logId : UUID) (d : DB)
    : DB * Reply :=
  match Routes.role user with
  | facilitator => (d, Failed 403 "Access denied. Manager role required.")
  | manager =>
      match Sequelize.findOne
              (fun l => (ActivityTracker.id l =? logId) && ActivityTracker.isActive l)
              (activityLogs d) with
      | None => (d, Failed 404 "Activity log not found")
      | Some _ =>
          (withActivityLogs d
             (map (fun l => if ActivityTracker.id l =? logId
                            then ActivityTracker.mk (ActivityTracker.id l)
                                   (ActivityTracker.allocationId l)
                                   (ActivityTracker.weekNumber l) false
                            else l)
                  (activityLogs d))
             (nextId d),
           Deleted)
      end
  end.

End ActivityRoutes.

(** ** Vocabulary of the properties *)

(** Unread reminders of the ledger that refer to an allocation. *)
Definition isUnreadReminderFor (aid : UUID) (n : Notification.t) : bool :=
  NotificationType_eqb (Notification.type n) reminder
  && match Notification.relatedEntityId n with
     | Some r => r =? aid
     | None => false
     end
  && negb (Notification.isRead n).

Definition unreadReminders (aid : UUID) (d : DB) : nat :=
  Sequelize.count (isUnreadReminderFor aid) (notifications d).

(** The intents one turn of the loop of [checkOverdueLogs] pushes, in the
    order of the pushes. *)
Definition intentsOf (d : DB) (week : Z) (now : Date) (a : CourseAllocation.t)
    : list RedisWorker.Intent :=
  match RedisWorker.activityLog d a week with
  | Some _ => []
  | None =>
      RedisWorker.mkIntent RedisWorker.REMINDER_FACILITATOR
        (CourseAllocation.facilitatorId a) None (CourseAllocation.id a) week now
      :: (if (2 <? week)%Z
          then [RedisWorker.mkIntent RedisWorker.ALERT_MANAGER
                  (CourseAllocation.facilitatorId a) None (CourseAllocation.id a)
                  week now]
          else [])
  end.

(** The allocations a ledger sweep reminds: active, and without any
    activity log. *)
Definition remindersDue (d : DB) : list CourseAllocation.t :=
  filter (fun a => NotificationWorker.isEmpty (NotificationService.getActivityLogs d a))
         (NotificationWorker.facilitatorsWithoutLogs d).

(** A piece of work of a ledger sweep: an allocation and the argument
    the sweep has for [createNotification], or the error that building
    the argument throws. *)
Definition Work : Type := CourseAllocation.t * Completion Notification.spec.

(** The work of a ledger sweep, in its order: a reminder for each
    allocation that is due one, then an alert for each active allocation
    older than seven days. *)
Definition work (now : Date) (d : DB) : list Work :=
  map (fun a => (a, Returned (NotificationService.reminderSpec d a)))
      (remindersDue d)
  ++ map (fun a => (a, NotificationService.deadlineSpec d a))
         (NotificationWorker.overdueAllocations now d).

(** The error a piece of work fails with: that of its argument, or that
    of [Notification.create]. *)
Definition failure (M : Models.Binding) (w : Work) : option string :=
  match snd w with
  | Threw e => Some e
  | Returned _ =>
      match M with
      | Models.Bound => None
      | Models.Unbound => Some (Models.undefinedRead "create")
      end
  end.

(** A row is the notification a piece of work asked for. *)
Definition createdBy (now : Date) (w : Work) (r : Notification.t) : Prop :=
  exists k s, snd w = Returned s /\ r = Notification.fresh k now s.

(** The rows a list of pieces of work leaves when it is carried out in
    order until one fails, and the error of that one. *)
Fixpoint carryOut (M : Models.Binding) (next : UUID) (now : Date)
    (l : list Work) : list Notification.t * option string :=
  match l with
  | [] => ([], None)
  | w :: rest =>
      match snd w, M with
      | Threw e, _ => ([], Some e)
      | Returned _, Models.Unbound => ([], Some (Models.undefinedRead "create"))
      | Returned s, Models.Bound =>
          let (rows, e) := carryOut M (S next) now rest in
          (Notification.fresh next now s :: rows, e)
      end
  end.

(** The lines of the console that report an error of the sweep. *)
Definition isWorkerError (c : NotificationWorker.Console) : bool :=
  match c with
  | NotificationWorker.WorkerError _ => true
  | _ => false
  end.

(** One ledger sweep after the other. *)
Definition sweeps (M : Models.Binding) (nows : list Date) (d : DB) : DB :=
  fold_left (fun d now => fst (NotificationWorker.checkForNotifications M now d))
            nows d.

(** The names [errorHandler] has a branch for. *)
Definition knownNames : list string :=
  ["SequelizeValidationError"; "SequelizeUniqueConstraintError";
   "SequelizeForeignKeyConstraintError"; "JsonWebTokenError";
   "TokenExpiredError"; "ValidationError"; "NotFoundError";
   "AuthorizationError"]%string.

(** Intents pushed one after the other. *)
Definition pushAll (l q : list RedisWorker.Intent) : list RedisWorker.Intent :=
  fold_left (fun q i => RedisWorker.lpush i q) l q.


(** The database and the log row after [ActivityTracker.create] has
    inserted a row. *)
Definition filed (aid : UUID) (week : Z) (d : DB) : DB * ActivityTracker.t :=
  (ActivityRoutes.withActivityLogs d
     (activityLogs d ++ [ActivityTracker.mk (nextId d) aid week true])
     (S (nextId d)),
   ActivityTracker.mk (nextId d) aid week true).

(** The key of the unique index of the activity logs. *)
Definition logPairs (d : DB) : list (UUID * Z) :=
  map (fun l => (ActivityTracker.allocationId l, ActivityTracker.weekNumber l))
      (activityLogs d).

(** A mail that fits an intent: the template of its type, its week, the
    module of its allocation. *)
Definition mailOf (d : DB) (i : RedisWorker.Intent) (m : RedisWorker.MailOptions)
    : Prop :=
  Some (RedisWorker.template m)
  = match RedisWorker.type i with
    | RedisWorker.ACTIVITY_LOG_CREATED => Some RedisWorker.activityLogCreated
    | RedisWorker.ACTIVITY_LOG_UPDATED => Some RedisWorker.activityLogUpdated
    | RedisWorker.REMINDER_FACILITATOR => Some RedisWorker.reminderFacilitator
    | RedisWorker.ALERT_MANAGER => Some RedisWorker.alertManager
    | RedisWorker.OTHER _ => None
    end
  /\ RedisWorker.m_weekNumber m = RedisWorker.weekNumber i
  /\ exists a md,
       Sequelize.findOne
         (fun a => CourseAllocation.id a =? RedisWorker.allocationId i)
         (allocations d) = Some a
       /\ NotificationService.module_of d a = Some md
       /\ RedisWorker.m_moduleName m = CourseModule.name md.

(** The template of an intent type. *)
Definition templateOf (t : RedisWorker.IntentType) : option RedisWorker.Template :=
  match t with
  | RedisWorker.ACTIVITY_LOG_CREATED => Some RedisWorker.activityLogCreated
  | RedisWorker.ACTIVITY_LOG_UPDATED => Some RedisWorker.activityLogUpdated
  | RedisWorker.REMINDER_FACILITATOR => Some RedisWorker.reminderFacilitator
  | RedisWorker.ALERT_MANAGER => Some RedisWorker.alertManager
  | RedisWorker.OTHER _ => None
  end.

(** ** Sample data *)

Module Sample.

Definition algebra : CourseModule.t := CourseModule.mk 1 "Algebra".
Definition mia : Manager.t := Manager.mk 1 "Mia" (Some "mia@example.org"%string).
Definition ann : Facilitator.t := Facilitator.mk 1 "Ann" "ann@example.org" (Some 1).
(** A facilitator without a manager. *)
Definition bob : Facilitator.t := Facilitator.mk 2 "Bob" "bob@example.org" None.

(** 2026-01-16T00:00:00Z and the day after. *)
Definition jan16 : Date := 1768521600000%Z.
Definition jan17 : Date := 1768608000000%Z.
(** 2026-01-01T00:00:00.000Z, and 2026-01-05T00:00:00Z. *)
Definition newYear : Date := 1767225600000%Z.
Definition jan05 : Date := 1767571200000%Z.

Definition annAlgebra (created : Date) : CourseAllocation.t :=
  CourseAllocation.mk 1 1 1 true created.
Definition bobAlgebra (created : Date) : CourseAllocation.t :=
  CourseAllocation.mk 2 1 2 true created.

(** One recent allocation, no activity log, an empty ledger. *)
Definition db1 : DB :=
  mkDB [algebra] [mia] [ann; bob] [annAlgebra jan16] [] [] 0.

Definition annUser : Routes.User := Routes.mkUser 1 facilitator.

(** A mail relay that is down, and one that takes every mail. *)
Definition noTransport (m : RedisWorker.MailOptions) : option string := None.

End Sample.

Module Fixtures.

(** 2026-12-31T12:00:00Z. *)
Definition dec31 : Date := 1798718400000%Z.

(** Ann's allocation, old, with her logs of weeks 3 and 52. *)
Definition week3Log : ActivityTracker.t := ActivityTracker.mk 10 1 3 true.
Definition week52Log : ActivityTracker.t := ActivityTracker.mk 11 1 52 true.

Definition dbLogged : DB :=
  mkDB [Sample.algebra] [Sample.mia] [Sample.ann; Sample.bob]
       [Sample.annAlgebra 0%Z; Sample.bobAlgebra 0%Z]
       [week3Log; week52Log] [] 20.

(** Two old allocations, Bob's first, each with a log of week 3. *)
Definition dbFiled : DB :=
  mkDB [Sample.algebra] [Sample.mia] [Sample.ann; Sample.bob]
       [Sample.bobAlgebra 0%Z; Sample.annAlgebra 0%Z]
       [week3Log; ActivityTracker.mk 12 2 3 true] [] 20.

Definition bobUser : Routes.User := Routes.mkUser 2 facilitator.
Definition miaUser : Routes.User := Routes.mkUser 1 manager.

(** The body [{allocationId, weekNumber}]. *)
Definition body (aid : UUID) (week : Z) : ActivityRoutes.Body :=
  ActivityRoutes.mkBody (Some (ActivityRoutes.BUuid aid))
    (Some (ActivityRoutes.BInt week))
    None None None None None None None None.


End Fixtures.

(** * Properties *)

(** ** Work carried out until it fails *)

Lemma withNotifications_self (d : DB) :
  withNotifications d (notifications d) (nextId d) = d.
Proof. destruct d. reflexivity. Qed.

Lemma carryOut_unbound n now l : fst (carryOut Models.Unbound n now l) = [].
Proof. destruct l as [|[a [s|e]] l]; reflexivity. Qed.

(** The error does not depend on the ids or on the clock. *)
Lemma carryOut_error M n n' now now' l :
  snd (carryOut M n now l) = snd (carryOut M n' now' l).
Proof.
  revert n n'. induction l as [|[a [s|e]] l IH]; intros n n'; simpl; try reflexivity.
  destruct M; [|reflexivity].
  specialize (IH (S n) (S n')).
  destruct (carryOut Models.Bound (S n) now l),
           (carryOut Models.Bound (S n') now' l).
  exact IH.
Qed.

Lemma carryOut_app M n now l1 l2 :
  carryOut M n now (l1 ++ l2)
  = match carryOut M n now l1 with
    | (r1, Some e) => (r1, Some e)
    | (r1, None) =>
        let (r2, e2) := carryOut M (n + length r1) now l2 in (r1 ++ r2, e2)
    end.
Proof.
  revert n. induction l1 as [|[a [s|e]] l1 IH]; intros n; simpl.
  - rewrite Nat.add_0_r. destruct (carryOut M n now l2). reflexivity.
  - destruct M; [|reflexivity].
    rewrite IH. destruct (carryOut Models.Bound (S n) now l1) as [r1 [e|]];
      [reflexivity|].
    simpl. rewrite Nat.add_succ_r.
    destruct (carryOut Models.Bound (S (n + length r1)) now l2). reflexivity.
  - reflexivity.
Qed.

(** Carried out in order: the pieces before the first that fails leave
    their rows, the first that fails gives the error, the pieces after it
    leave nothing. *)
Lemma carryOut_split M n now l :
  exists done rest,
    l = done ++ rest
    /\ Forall2 (fun w r => failure M w = None /\ createdBy now w r)
               done (fst (carryOut M n now l))
    /\ match rest with
       | [] => snd (carryOut M n now l) = None
       | w :: _ => exists e, failure M w = Some e
                             /\ snd (carryOut M n now l) = Some e
       end.
Proof.
  revert n. induction l as [|[a [s|e]] l IH]; intros n.
  - exists [], []. simpl. auto.
  - destruct M.
    + destruct (IH (S n)) as (done & rest & -> & Hrows & Hrest).
      exists ((a, Returned s) :: done), rest. simpl.
      destruct (carryOut Models.Bound (S n) now (done ++ rest)) as [rows e].
      simpl in *. repeat split; [|exact Hrest].
      constructor; [|exact Hrows].
      split; [reflexivity|]. exists n, s. auto.
    + exists [], ((a, Returned s) :: l). simpl. repeat split; [constructor|].
      eexists. split; reflexivity.
  - exists [], ((a, Threw e) :: l). simpl. repeat split; [constructor|].
    exists e. split; reflexivity.
Qed.

(** ** The two loops of the service *)

Lemma sendReminderToFacilitators_carries M now d allocs l n :
  NotificationService.sendReminderToFacilitators M now allocs
    (withNotifications d l n)
  = let (rows, e) :=
      carryOut M n now
        (map (fun a => (a, Returned (NotificationService.reminderSpec d a)))
             (filter (fun a => NotificationWorker.isEmpty
                                 (NotificationService.getActivityLogs d a))
                     allocs)) in
    (withNotifications d (l ++ rows) (n + length rows),
     match e with
     | None => Returned rows
     | Some e => Threw e
     end).
Proof.
  revert l n. induction allocs as [|a allocs IH]; intros l n.
  - simpl. rewrite app_nil_r, Nat.add_0_r. reflexivity.
  - cbn [NotificationService.sendReminderToFacilitators filter].
    change (NotificationService.getActivityLogs (withNotifications d l n) a)
      with (NotificationService.getActivityLogs d a).
    destruct (NotificationService.getActivityLogs d a) as [|x logs] eqn:Hlogs.
    + cbn [NotificationWorker.isEmpty map carryOut snd].
      unfold NotificationService.createNotification.
      destruct M.
      * change (withNotifications (withNotifications d l n)
                  (notifications (withNotifications d l n)
                     ++ [Notification.fresh (nextId (withNotifications d l n)) now
                           (NotificationService.reminderSpec
                              (withNotifications d l n) a)])
                  (S (nextId (withNotifications d l n))))
          with (withNotifications d
                  (l ++ [Notification.fresh n now
                           (NotificationService.reminderSpec d a)])
                  (S n)).
        rewrite IH.
        destruct (carryOut Models.Bound (S n) now _) as [rows [e|]];
          cbn [length]; rewrite <- app_assoc, Nat.add_succ_r; reflexivity.
      * rewrite app_nil_r, Nat.add_0_r. reflexivity.
    + cbn [NotificationWorker.isEmpty]. apply IH.
Qed.

Lemma sendDeadlineAlertToManagers_carries M now d allocs l n :
  NotificationService.sendDeadlineAlertToManagers M now allocs
    (withNotifications d l n)
  = let (rows, e) :=
      carryOut M n now
        (map (fun a => (a, NotificationService.deadlineSpec d a)) allocs) in
    (withNotifications d (l ++ rows) (n + length rows),
     match e with
     | None => Returned rows
     | Some e => Threw e
     end).
Proof.
  revert l n. induction allocs as [|a allocs IH]; intros l n.
  - simpl. rewrite app_nil_r, Nat.add_0_r. reflexivity.
  - cbn [NotificationService.sendDeadlineAlertToManagers map carryOut snd].
    change (NotificationService.deadlineSpec (withNotifications d l n) a)
      with (NotificationService.deadlineSpec d a).
    destruct (NotificationService.deadlineSpec d a) as [s|e].
    + unfold NotificationService.createNotification.
      destruct M.
      * change (withNotifications (withNotifications d l n)
                  (notifications (withNotifications d l n)
                     ++ [Notification.fresh (nextId (withNotifications d l n)) now s])
                  (S (nextId (withNotifications d l n))))
          with (withNotifications d (l ++ [Notification.fresh n now s]) (S n)).
        rewrite IH.
        destruct (carryOut Models.Bound (S n) now _) as [rows [e|]];
          cbn [length]; rewrite <- app_assoc, Nat.add_succ_r; reflexivity.
      * rewrite app_nil_r, Nat.add_0_r. reflexivity.
    + rewrite app_nil_r, Nat.add_0_r. reflexivity.
Qed.

(** ** The ledger sweep *)

(** The sweep, written with the work it carries out. *)
Lemma checkForNotifications_unfold M now d l n :
  NotificationWorker.checkForNotifications M now (withNotifications d l n)
  = let without := NotificationWorker.facilitatorsWithoutLogs d in
    let overdue := NotificationWorker.overdueAllocations now d in
    let c1 := match without with
              | [] => []
              | _ :: _ => [NotificationWorker.SendingReminders (length without)]
              end in
    let (r1, e1) :=
      carryOut M n now
        (map (fun a => (a, Returned (NotificationService.reminderSpec d a)))
             (remindersDue d)) in
    match e1 with
    | Some e =>
        (withNotifications d (l ++ r1) (n + length r1),
         [NotificationWorker.Checking] ++ c1 ++ [NotificationWorker.WorkerError e])
    | None =>
        match overdue with
        | [] =>
            (withNotifications d (l ++ r1) (n + length r1),
             [NotificationWorker.Checking] ++ c1
               ++ [NotificationWorker.CheckCompleted])
        | _ :: _ =>
            let (r2, e2) :=
              carryOut M (n + length r1) now
                (map (fun a => (a, NotificationService.deadlineSpec d a)) overdue) in
            (withNotifications d ((l ++ r1) ++ r2) (n + length r1 + length r2),
             [NotificationWorker.Checking] ++ c1
               ++ [NotificationWorker.SendingDeadlineAlerts (length overdue);
                   match e2 with
                   | None => NotificationWorker.CheckCompleted
                   | Some e => NotificationWorker.WorkerError e
                   end])
        end
    end.
Proof.
  unfold NotificationWorker.checkForNotifications, remindersDue.
  change (NotificationWorker.facilitatorsWithoutLogs (withNotifications d l n))
    with (NotificationWorker.facilitatorsWithoutLogs d).
  change (NotificationWorker.overdueAllocations now (withNotifications d l n))
    with (NotificationWorker.overdueAllocations now d).
  cbv zeta.
  destruct (NotificationWorker.facilitatorsWithoutLogs d) as [|a without] eqn:Hw.
  - cbn [filter map carryOut]. rewrite app_nil_r, Nat.add_0_r.
    destruct (NotificationWorker.overdueAllocations now d) as [|b overdue] eqn:Ho;
      [reflexivity|].
    rewrite sendDeadlineAlertToManagers_carries.
    destruct (carryOut M n now _) as [r2 [e|]]; reflexivity.
  - rewrite sendReminderToFacilitators_carries.
    destruct (carryOut M n now _) as [r1 [e|]]; [reflexivity|].
    destruct (NotificationWorker.overdueAllocations now d) as [|b overdue] eqn:Ho;
      [reflexivity|].
    rewrite sendDeadlineAlertToManagers_carries.
    destruct (carryOut M (n + length r1) now _) as [r2 [e|]]; reflexivity.
Qed.

(** What a sweep leaves: the rows of its work, carried out until it
    fails, behind the rows of the ledger; the other tables as they were;
    the error, if any, in the last line of the console and in no other. *)
Lemma checkForNotifications_carries M now d l n :
  fst (NotificationWorker.checkForNotifications M now (withNotifications d l n))
  = withNotifications d (l ++ fst (carryOut M n now (work now d)))
      (n + length (fst (carryOut M n now (work now d))))
  /\ last (snd (NotificationWorker.checkForNotifications M now
                  (withNotifications d l n)))
          NotificationWorker.Checking
     = match snd (carryOut M n now (work now d)) with
       | None => NotificationWorker.CheckCompleted
       | Some e => NotificationWorker.WorkerError e
       end
  /\ existsb isWorkerError
       (removelast (snd (NotificationWorker.checkForNotifications M now
                           (withNotifications d l n)))) = false.
Proof.
  rewrite checkForNotifications_unfold. unfold work. rewrite carryOut_app.
  cbv zeta.
  destruct (carryOut M n now
              (map (fun a => (a, Returned (NotificationService.reminderSpec d a)))
                   (remindersDue d))) as [r1 [e|]].
  - destruct (NotificationWorker.facilitatorsWithoutLogs d); simpl; auto.
  - destruct (NotificationWorker.overdueAllocations now d) as [|b overdue].
    + cbn [map carryOut fst snd]. rewrite !app_nil_r.
      destruct (NotificationWorker.facilitatorsWithoutLogs d); simpl; auto.
    + destruct (carryOut M (n + length r1) now _) as [r2 e2].
      cbn [fst snd]. rewrite length_app, Nat.add_assoc, app_assoc.
      destruct (NotificationWorker.facilitatorsWithoutLogs d), e2; simpl; auto.
Qed.

(** The lines of the console do not depend on the ledger. *)
Lemma checkForNotifications_console M now d l l' n :
  snd (NotificationWorker.checkForNotifications M now (withNotifications d l n))
  = snd (NotificationWorker.checkForNotifications M now (withNotifications d l' n)).
Proof.
  rewrite !checkForNotifications_unfold. cbv zeta.
  destruct (carryOut M n now
              (map (fun a => (a, Returned (NotificationService.reminderSpec d a)))
                   (remindersDue d))) as [r1 [e|]]; [reflexivity|].
  destruct (NotificationWorker.overdueAllocations now d) as [|b overdue];
    [reflexivity|].
  destruct (carryOut M (n + length r1) now _) as [r2 e2]. reflexivity.
Qed.

(** ** The week number *)

Lemma ceilDiv_spec (a b : Z) :
  (0 < b)%Z -> (b * (JSDate.ceilDiv a b - 1) < a <= b * JSDate.ceilDiv a b)%Z.
Proof.
  intros Hb. unfold JSDate.ceilDiv.
  pose proof (Z.div_mod (- a) b) as Hdm.
  pose proof (Z.mod_pos_bound (- a) b Hb) as Hm.
  nia.
Qed.

(** [YearFromTime t] is the year whose span holds [t]: the estimate and
    its correction by one year are exact. *)
Lemma TimeFromYear_YearFromTime (t : Z) :
  (JSDate.TimeFromYear (JSDate.YearFromTime t) <= t
   < JSDate.TimeFromYear (JSDate.YearFromTime t + 1))%Z.
Proof.
  unfold JSDate.YearFromTime.
  set (y := (1970 + 400 * (t / JSDate.msPerDay) / 146097)%Z).
  destruct (t <? JSDate.TimeFromYear y)%Z eqn:E1.
  - apply Z.ltb_lt in E1. replace (y - 1 + 1)%Z with y by lia.
    split; [|exact E1]. clear E1. subst y.
    unfold JSDate.TimeFromYear, JSDate.DayFromYear, JSDate.msPerDay.
    Z.div_mod_to_equations. lia.
  - apply Z.ltb_ge in E1.
    destruct (JSDate.TimeFromYear (y + 1) <=? t)%Z eqn:E2.
    + apply Z.leb_le in E2. split; [exact E2|]. clear E1 E2. subst y.
      unfold JSDate.TimeFromYear, JSDate.DayFromYear, JSDate.msPerDay.
      Z.div_mod_to_equations. lia.
    + apply Z.leb_gt in E2. lia.
Qed.

Lemma fullYear_same (y : Z) :
  (y < 0 \/ 99 < y)%Z -> JSDate.fullYear y = y.
Proof.
  intros H. unfold JSDate.fullYear.
  destruct (0 <=? y)%Z eqn:E1; [|reflexivity].
  destruct (y <=? 99)%Z eqn:E2; [|reflexivity].
  apply Z.leb_le in E1. apply Z.leb_le in E2. lia.
Qed.

(** Outside the years 0 to 99 the first of January of the year is not
    after [now]. *)
Lemma startOfYear_le (tz : Z) (now : Date) :
  (JSDate.YearFromTime (now + tz) < 0 \/ 99 < JSDate.YearFromTime (now + tz))%Z ->
  (JSDate.startOfYear tz now <= now)%Z.
Proof.
  intros Hy. unfold JSDate.startOfYear. rewrite (fullYear_same Hy).
  pose proof (TimeFromYear_YearFromTime (now + tz)). lia.
Qed.

(** There the week number is 0 at the first instant of the year and at
    least 1 at every other instant. *)
Lemma currentWeek_zero_iff (tz : Z) (now : Date) :
  (JSDate.YearFromTime (now + tz) < 0 \/ 99 < JSDate.YearFromTime (now + tz))%Z ->
  (0 <= RedisWorker.currentWeek tz now)%Z
  /\ (RedisWorker.currentWeek tz now = 0%Z <-> now = JSDate.startOfYear tz now).
Proof.
  intros Hy. unfold RedisWorker.currentWeek.
  pose proof (startOfYear_le tz now Hy) as Hle.
  assert (Hw : (0 < RedisWorker.weekMs)%Z) by reflexivity.
  pose proof (ceilDiv_spec (now - JSDate.startOfYear tz now) Hw) as Hc.
  split; [nia|]. split; intros H.
  - rewrite H in Hc. lia.
  - nia.
Qed.

(** ** The Redis-backed sweep *)

Lemma checkAllocation_pushes d week now q a :
  RedisWorker.checkAllocation d week now q a = rev (intentsOf d week now a) ++ q.
Proof.
  unfold RedisWorker.checkAllocation, intentsOf, RedisWorker.lpush.
  destruct (RedisWorker.activityLog d a week); [reflexivity|].
  destruct (2 <? week)%Z; reflexivity.
Qed.

Lemma fold_checkAllocation d week now l q :
  fold_left (RedisWorker.checkAllocation d week now) l q
  = rev (flat_map (intentsOf d week now) l) ++ q.
Proof.
  revert q. induction l as [|a l IH]; intros q; simpl; [reflexivity|].
  rewrite IH, checkAllocation_pushes, rev_app_distr, app_assoc. reflexivity.
Qed.

(** The sweep pushes, allocation after allocation, the intents of the
    active allocations, and nothing else. *)
Lemma sweepWeek_pushes d week now q :
  RedisWorker.sweepWeek d week now q
  = rev (flat_map (intentsOf d week now)
                  (filter CourseAllocation.isActive (allocations d))) ++ q.
Proof. apply fold_checkAllocation. Qed.

(** Only active allocations are scanned. *)
Lemma checkOverdueLogs_scans_active tz now d i :
  In i (RedisWorker.checkOverdueLogs tz now d []) ->
  exists a, In a (allocations d)
            /\ CourseAllocation.isActive a = true
            /\ RedisWorker.allocationId i = CourseAllocation.id a
            /\ RedisWorker.weekNumber i = RedisWorker.currentWeek tz now.
Proof.
  unfold RedisWorker.checkOverdueLogs. rewrite sweepWeek_pushes, app_nil_r.
  rewrite <- in_rev, in_flat_map. intros (a & Ha & Hi).
  apply filter_In in Ha as [Ha Hact]. exists a. repeat split; auto;
    unfold intentsOf in Hi;
    destruct (RedisWorker.activityLog d a _); simpl in Hi; try tauto;
    destruct (2 <? _)%Z; simpl in Hi;
    repeat (destruct Hi as [<-|Hi]; [reflexivity|]); tauto.
Qed.

(** C9, on the code.  At 2026-01-01T00:00:00.000 on a host in UTC the
    week number is 0, and the sweep files its intents under week 0. *)
Theorem currentWeek_at_new_year :
  RedisWorker.currentWeek 0 Sample.newYear = 0%Z
  /\ map RedisWorker.weekNumber
         (RedisWorker.checkOverdueLogs 0 Sample.newYear Sample.db1 [])
     = [0%Z].
Proof. vm_compute. split; reflexivity. Qed.

(** ** Repeated sweeps *)

Lemma count_app {A} (f : A -> bool) (l l' : list A) :
  Sequelize.count f (l ++ l') = Sequelize.count f l + Sequelize.count f l'.
Proof. unfold Sequelize.count. rewrite filter_app, length_app. reflexivity. Qed.

Lemma deadlineSpec_type d a s :
  NotificationService.deadlineSpec d a = Returned s ->
  Notification.s_type s = deadline.
Proof.
  unfold NotificationService.deadlineSpec.
  destruct (NotificationService.getFacilitator d a) as [f|]; [|discriminate].
  destruct (NotificationService.getManager d f) as [m|]; [|discriminate].
  destruct (NotificationService.module_of d a) as [md|]; [|discriminate].
  intros [= <-]. reflexivity.
Qed.

(** With the model bound no reminder fails, and each is an unread
    reminder for its allocation. *)
Lemma carryOut_reminders n now d aid due :
  snd (carryOut Models.Bound n now
         (map (fun a => (a, Returned (NotificationService.reminderSpec d a))) due))
  = None
  /\ Sequelize.count (isUnreadReminderFor aid)
       (fst (carryOut Models.Bound n now
               (map (fun a => (a, Returned (NotificationService.reminderSpec d a)))
                    due)))
     = length (filter (fun a => CourseAllocation.id a =? aid) due).
Proof.
  revert n. induction due as [|a due IH]; intros n; [split; reflexivity|].
  cbn [map carryOut snd filter]. specialize (IH (S n)).
  destruct (carryOut Models.Bound (S n) now _) as [rows e].
  cbn [fst snd] in *. destruct IH as [-> IH]. split; [reflexivity|].
  unfold Sequelize.count in *. cbn [filter].
  unfold isUnreadReminderFor at 1. simpl.
  destruct (CourseAllocation.id a =? aid); simpl; rewrite IH; reflexivity.
Qed.

(** No alert is a reminder. *)
Lemma carryOut_alerts M n now d aid allocs :
  Sequelize.count (isUnreadReminderFor aid)
    (fst (carryOut M n now
            (map (fun a => (a, NotificationService.deadlineSpec d a)) allocs)))
  = 0.
Proof.
  revert n. induction allocs as [|a allocs IH]; intros n; [reflexivity|].
  cbn [map carryOut snd].
  destruct (NotificationService.deadlineSpec d a) as [s|e] eqn:Hs; [|reflexivity].
  destruct M; [|reflexivity].
  specialize (IH (S n)). destruct (carryOut Models.Bound (S n) now _) as [rows e].
  cbn [fst] in *. unfold Sequelize.count in *. cbn [filter].
  unfold isUnreadReminderFor at 1. simpl.
  rewrite (deadlineSpec_type _ _ Hs). simpl. exact IH.
Qed.

(** The unread reminders one sweep adds for an allocation. *)
Lemma carryOut_work_reminders M n now d aid :
  Sequelize.count (isUnreadReminderFor aid) (fst (carryOut M n now (work now d)))
  = match M with
    | Models.Bound =>
        length (filter (fun a => CourseAllocation.id a =? aid) (remindersDue d))
    | Models.Unbound => 0
    end.
Proof.
  destruct M; [|rewrite carryOut_unbound; reflexivity].
  unfold work. rewrite carryOut_app.
  destruct (carryOut_reminders n now d aid (remindersDue d)) as [He Hc].
  destruct (carryOut Models.Bound n now
              (map (fun a => (a, Returned (NotificationService.reminderSpec d a)))
                   (remindersDue d))) as [r1 e1].
  cbn [fst snd] in *. subst e1.
  pose proof (carryOut_alerts Models.Bound (n + length r1) now d aid
                (NotificationWorker.overdueAllocations now d)) as Ha.
  destruct (carryOut Models.Bound (n + length r1) now _) as [r2 e2].
  cbn [fst] in *. rewrite count_app, Hc, Ha. lia.
Qed.

Lemma sweeps_count M d aid nows l n :
  unreadReminders aid (sweeps M nows (withNotifications d l n))
  = Sequelize.count (isUnreadReminderFor aid) l
    + length nows
      * match M with
        | Models.Bound =>
            length (filter (fun a => CourseAllocation.id a =? aid) (remindersDue d))
        | Models.Unbound => 0
        end.
Proof.
  revert l n. induction nows as [|now nows IH]; intros l n.
  - simpl. unfold unreadReminders. simpl. lia.
  - unfold sweeps in *. cbn [fold_left].
    destruct (checkForNotifications_carries M now d l n) as [-> _].
    rewrite IH, count_app, carryOut_work_reminders. cbn [length]. lia.
Qed.

(** C1, as the code has it.  Neither sweep consults the ledger: the
    rows the ledger sweep adds and the lines it logs, and the intents the
    Redis-backed sweep pushes, are the same whatever notifications the
    ledger holds, an unread reminder for the same allocation included.
    Every ledger sweep adds the same number of unread reminders for an
    allocation, so after [k] sweeps the ledger holds the number it held
    before plus [k] times that number; with [Notification] bound to the
    model that number is the number of entries of the allocation among the
    allocations due a reminder.  A Redis-backed sweep repeated at once
    pushes its intents a second time. *)
Theorem sweep_never_consults_the_ledger
    (M : Models.Binding) (now : Date) (d : DB) (aid : UUID)
    (l1 l2 : list Notification.t) (n : UUID) :
  (exists added,
     notifications
       (fst (NotificationWorker.checkForNotifications M now
               (withNotifications d l1 n))) = l1 ++ added
     /\ notifications
          (fst (NotificationWorker.checkForNotifications M now
                  (withNotifications d l2 n))) = l2 ++ added)
  /\ snd (NotificationWorker.checkForNotifications M now (withNotifications d l1 n))
     = snd (NotificationWorker.checkForNotifications M now (withNotifications d l2 n))
  /\ (forall tz q,
        RedisWorker.checkOverdueLogs tz now (withNotifications d l1 n) q
        = RedisWorker.checkOverdueLogs tz now (withNotifications d l2 n) q
        /\ exists pushed,
             RedisWorker.checkOverdueLogs tz now d q = pushed ++ q
             /\ RedisWorker.checkOverdueLogs tz now d
                  (RedisWorker.checkOverdueLogs tz now d q)
                = pushed ++ pushed ++ q)
  /\ exists c,
       (forall t,
          unreadReminders aid
            (fst (NotificationWorker.checkForNotifications M t d))
          = unreadReminders aid d + c)
       /\ (forall nows,
             unreadReminders aid (sweeps M nows d)
             = unreadReminders aid d + length nows * c)
       /\ (M = Models.Bound ->
           c = length (filter (fun a => CourseAllocation.id a =? aid)
                              (remindersDue d))).
Proof.
  split; [|split; [|split]].
  - exists (fst (carryOut M n now (work now d))).
    destruct (checkForNotifications_carries M now d l1 n) as [-> _].
    destruct (checkForNotifications_carries M now d l2 n) as [-> _].
    split; reflexivity.
  - apply checkForNotifications_console.
  - intros tz q. split; [reflexivity|].
    unfold RedisWorker.checkOverdueLogs. rewrite !sweepWeek_pushes.
    eexists. split; reflexivity.
  - exists (match M with
            | Models.Bound =>
                length (filter (fun a => CourseAllocation.id a =? aid)
                               (remindersDue d))
            | Models.Unbound => 0
            end).
    split; [|split].
    + intros t.
      pose proof (sweeps_count M d aid [t] (notifications d) (nextId d)) as H.
      rewrite withNotifications_self in H. unfold sweeps in H. simpl in H.
      rewrite H. unfold unreadReminders. lia.
    + intros nows.
      pose proof (sweeps_count M d aid nows (notifications d) (nextId d)) as H.
      rewrite withNotifications_self in H. exact H.
    + intros ->. reflexivity.
Qed.

(** C1, on the program: after one sweep, and after two, over an
    allocation that has no activity log, the ledger holds no unread
    reminder for it; the sweep has logged the error of
    [Notification.create]. *)
Lemma sweeps_leave_no_unread_reminder :
  unreadReminders 1 (sweeps Models.Notification [Sample.jan16] Sample.db1) = 0
  /\ unreadReminders 1
       (sweeps Models.Notification [Sample.jan16; Sample.jan17] Sample.db1) = 0
  /\ NotificationWorker.checkForNotifications Models.Notification Sample.jan16
       Sample.db1
     = (Sample.db1,
        [NotificationWorker.Checking; NotificationWorker.SendingReminders 1;
         NotificationWorker.WorkerError
           "TypeError: Cannot read properties of undefined (reading 'create')"]).
Proof. repeat split. Qed.

(** With [Notification] bound to the model the same two sweeps leave two
    unread reminders. *)
Example two_sweeps_with_the_model_bound :
  unreadReminders 1 (sweeps Models.Bound [Sample.jan16; Sample.jan17] Sample.db1)
  = 2.
Proof. reflexivity. Qed.

(** ** Failures inside a sweep *)

(** C3, as the code has it.  The sweep itself never throws: an error is
    caught by the [try] around the whole sweep and is the last line of the
    console, the only error line.  The sweep ends there.  Its work splits
    into the pieces done, whose rows are in the ledger behind the rows it
    held, and the rest: the piece that failed, if any, and the pieces
    after it, which leave nothing. *)
Theorem sweep_stops_at_first_failure
    (M : Models.Binding) (now : Date) (d : DB) :
  let after := NotificationWorker.checkForNotifications M now d in
  exists done rest rows,
    work now d = done ++ rest
    /\ notifications (fst after) = notifications d ++ rows
    /\ Forall2 (fun w r => failure M w = None /\ createdBy now w r) done rows
    /\ existsb isWorkerError (removelast (snd after)) = false
    /\ match rest with
       | [] => last (snd after) NotificationWorker.Checking
               = NotificationWorker.CheckCompleted
       | w :: _ =>
           exists e, failure M w = Some e
                     /\ last (snd after) NotificationWorker.Checking
                        = NotificationWorker.WorkerError e
       end.
Proof.
  intros after.
  pose proof (checkForNotifications_carries M now d (notifications d) (nextId d))
    as (Hdb & Hlast & Hone).
  rewrite withNotifications_self in Hdb, Hlast, Hone. fold after in Hdb, Hlast, Hone.
  destruct (carryOut_split M (nextId d) now (work now d))
    as (done & rest & Hwork & Hrows & Hrest).
  exists done, rest, (fst (carryOut M (nextId d) now (work now d))).
  split; [exact Hwork|]. split; [rewrite Hdb; reflexivity|].
  split; [exact Hrows|]. split; [exact Hone|].
  rewrite Hlast. destruct rest as [|w rest].
  - rewrite Hrest. reflexivity.
  - destruct Hrest as (e & Hf & ->). exists e. auto.
Qed.

(** C3, on the program: two old allocations, each with an activity log;
    Bob, whose allocation comes first, has no manager.  The sweep logs the
    error of Bob's alert and ends: nothing is logged or written for Ann's
    allocation. *)
Lemma sweep_ends_at_first_failure :
  map fst (work Sample.jan16 Fixtures.dbFiled)
  = [Sample.bobAlgebra 0%Z; Sample.annAlgebra 0%Z]
  /\ NotificationWorker.checkForNotifications Models.Notification Sample.jan16
       Fixtures.dbFiled
     = (Fixtures.dbFiled,
        [NotificationWorker.Checking; NotificationWorker.SendingDeadlineAlerts 2;
         NotificationWorker.WorkerError
           "TypeError: Cannot read properties of null (reading 'id')"]).
Proof. split; reflexivity. Qed.

(** The same sweep with [Notification] bound to the model ends at Bob's
    allocation as well: Ann's manager gets no alert. *)
Example bound_model_stops_at_bob_too :
  NotificationWorker.checkForNotifications Models.Bound Sample.jan16
    Fixtures.dbFiled
  = (Fixtures.dbFiled,
     [NotificationWorker.Checking; NotificationWorker.SendingDeadlineAlerts 2;
      NotificationWorker.WorkerError
        "TypeError: Cannot read properties of null (reading 'id')"]).
Proof. reflexivity. Qed.

(** ** The ledger operations, on the program *)

(** Every ledger function of the service fails before it reaches the
    table. *)
Lemma service_throws now s i u t o d :
  NotificationService.createNotification Models.Notification now s d
  = (d, Threw (Models.undefinedRead "create"))
  /\ NotificationService.markAsRead Models.Notification i u now d
     = (d, Threw (Models.undefinedRead "update"))
  /\ NotificationService.getUserNotifications Models.Notification u t o d
     = Threw (Models.undefinedRead "findAll")
  /\ NotificationService.getUnreadCount Models.Notification u t d
     = Threw (Models.undefinedRead "count").
Proof. repeat split. Qed.

(** C2, on the program.  [PUT /:id/read] answers 500 to every request
    that reaches the handler, and writes nothing: no notification is
    marked read, and no request is answered 404. *)
Theorem markRead_answers_500
    (user : Routes.User) (notificationId : UUID) (now : Date) (d : DB) :
  Routes.markRead user notificationId now d
  = (d, Routes.Status 500 "Failed to mark notification as read")
  /\ NotificationService.markAsRead Models.Notification notificationId
       (Routes.id user) now d
     = (d, Threw "TypeError: Cannot read properties of undefined (reading 'update')").
Proof. split; reflexivity. Qed.

(** C6, on the program.  [GET /] answers 400 to a query that fails the
    validation and 500 to every other query: no listing is returned. *)
Theorem listNotifications_answers_500
    (user : Routes.User) (q : Routes.ListQuery) (d : DB) :
  Routes.listNotifications user q d
  = if Routes.validListQuery q
    then Routes.Status 500 "Failed to get notifications"
    else Routes.Status 400 "Validation error".
Proof.
  unfold Routes.listNotifications. destruct (Routes.validListQuery q); reflexivity.
Qed.

(** The two requests of the scenario: a limit of 101 is refused, the
    default query is not answered. *)
Example listNotifications_requests :
  Routes.listNotifications Sample.annUser
    (Routes.mkListQuery (Some (Routes.QInt 101)) None None) Sample.db1
  = Routes.Status 400 "Validation error"
  /\ Routes.listNotifications Sample.annUser
       (Routes.mkListQuery None None None) Sample.db1
     = Routes.Status 500 "Failed to get notifications".
Proof. split; reflexivity. Qed.

(** C7, on the program.  [markAsDelivered] throws at every call, the
    first and the second alike, and writes nothing. *)
Theorem markAsDelivered_throws (notificationId : UUID) (t1 t2 : Date) (d : DB) :
  NotificationService.markAsDelivered Models.Notification notificationId t1 d
  = (d, Threw "TypeError: Cannot read properties of undefined (reading 'update')")
  /\ NotificationService.markAsDelivered Models.Notification notificationId t2
       (fst (NotificationService.markAsDelivered Models.Notification
               notificationId t1 d))
     = (d, Threw "TypeError: Cannot read properties of undefined (reading 'update')").
Proof. split; reflexivity. Qed.

(** C10, on the program.  [PUT /read-all] answers 500 to every request,
    the first and the repeated one alike; it writes nothing and returns no
    count. *)
Theorem readAll_answers_500 (user : Routes.User) (t1 t2 : Date) (d : DB) :
  Routes.readAll user t1 d
  = (d, Routes.Status 500 "Failed to mark notifications as read")
  /\ Routes.readAll user t2 (fst (Routes.readAll user t1 d))
     = (d, Routes.Status 500 "Failed to mark notifications as read").
Proof. split; reflexivity. Qed.

(** [GET /unread-count] answers 500 as well. *)
Example unreadCount_answers_500 :
  Routes.unreadCount Sample.annUser Sample.db1
  = Routes.Status 500 "Failed to get unread count".
Proof. reflexivity. Qed.

(** ** The scheduler *)

Lemma checkForNotifications_first_line M now d :
  exists c, snd (NotificationWorker.checkForNotifications M now d)
            = NotificationWorker.Checking :: c.
Proof.
  unfold NotificationWorker.checkForNotifications. cbv zeta.
  destruct (NotificationWorker.facilitatorsWithoutLogs d) as [|a without].
  - destruct (NotificationWorker.overdueAllocations now d) as [|b overdue];
      [eexists; reflexivity|].
    destruct (NotificationService.sendDeadlineAlertToManagers _ _ _ _) as [d2 [r|e]];
      eexists; reflexivity.
  - destruct (NotificationService.sendReminderToFacilitators _ _ _ _) as [d1 [r|e]];
      [|eexists; reflexivity].
    destruct (NotificationWorker.overdueAllocations now d) as [|b overdue];
      [eexists; reflexivity|].
    destruct (NotificationService.sendDeadlineAlertToManagers _ _ _ _)
      as [d2 [r2|e2]]; eexists; reflexivity.
Qed.

(** An uninterrupted [start] logs its line and then sweeps. *)
Lemma start_sweeps (s : NotificationWorker.State) (now : Date) :
  NotificationWorker.isRunning s = false ->
  NotificationWorker.console (NotificationWorker.start now s)
  = NotificationWorker.console s
    ++ NotificationWorker.Starting
       :: snd (NotificationWorker.checkForNotifications Models.Notification now
                 (NotificationWorker.db s))
  /\ NotificationWorker.db (NotificationWorker.start now s)
     = fst (NotificationWorker.checkForNotifications Models.Notification now
              (NotificationWorker.db s)).
Proof.
  intros R. unfold NotificationWorker.start, NotificationWorker.startResume,
                   NotificationWorker.startCall.
  rewrite R. cbn [NotificationWorker.starting NotificationWorker.db
                  NotificationWorker.console].
  destruct (checkForNotifications_first_line Models.Notification now
              (NotificationWorker.db s)) as (c & Hc).
  destruct (NotificationWorker.checkForNotifications Models.Notification now
              (NotificationWorker.db s)) as [d c'].
  cbn [snd fst] in *. subst c'.
  cbn [NotificationWorker.console NotificationWorker.db tl].
  rewrite <- app_assoc. split; reflexivity.
Qed.

Lemma clearInterval_cancels (h : nat) (l : list nat) :
  ~ In h (NotificationWorker.clearInterval h l).
Proof.
  unfold NotificationWorker.clearInterval. rewrite filter_In.
  intros [_ H]. rewrite Nat.eqb_refl in H. discriminate.
Qed.

(** The calls on a worker in any state.  A call of [start] on a running
    worker adds the warning to the console and changes nothing else; on a
    stopped worker it sets the flag at once and leaves one call waiting
    for its timer.  A call of [stop] on a stopped worker adds the warning
    and changes nothing else; on a running worker it clears the flag and
    cancels the timer whose handle the worker holds at that moment, and no
    other. *)
Lemma worker_calls (s : NotificationWorker.State) (now : Date) :
  if NotificationWorker.isRunning s then
    NotificationWorker.startCall s
    = NotificationWorker.mkState true (NotificationWorker.checkInterval s)
        (NotificationWorker.interval s) (NotificationWorker.timers s)
        (NotificationWorker.nextTimer s) (NotificationWorker.starting s)
        (NotificationWorker.console s ++ [NotificationWorker.AlreadyRunning])
        (NotificationWorker.db s)
    /\ NotificationWorker.start now s = NotificationWorker.startCall s
    /\ NotificationWorker.isRunning (NotificationWorker.stop s) = false
    /\ NotificationWorker.console (NotificationWorker.stop s)
       = NotificationWorker.console s ++ [NotificationWorker.Stopped]
    /\ NotificationWorker.starting (NotificationWorker.stop s)
       = NotificationWorker.starting s
    /\ match NotificationWorker.interval s with
       | Some h =>
           NotificationWorker.timers (NotificationWorker.stop s)
           = NotificationWorker.clearInterval h (NotificationWorker.timers s)
           /\ ~ In h (NotificationWorker.timers (NotificationWorker.stop s))
       | None =>
           NotificationWorker.timers (NotificationWorker.stop s)
           = NotificationWorker.timers s
       end
  else
    NotificationWorker.stop s
    = NotificationWorker.mkState false (NotificationWorker.checkInterval s)
        (NotificationWorker.interval s) (NotificationWorker.timers s)
        (NotificationWorker.nextTimer s) (NotificationWorker.starting s)
        (NotificationWorker.console s ++ [NotificationWorker.NotRunning])
        (NotificationWorker.db s)
    /\ NotificationWorker.isRunning (NotificationWorker.startCall s) = true
    /\ NotificationWorker.timers (NotificationWorker.startCall s)
       = NotificationWorker.timers s
    /\ NotificationWorker.starting (NotificationWorker.startCall s)
       = S (NotificationWorker.starting s)
    /\ NotificationWorker.isRunning (NotificationWorker.start now s) = true
    /\ NotificationWorker.starting (NotificationWorker.start now s)
       = NotificationWorker.starting s
    /\ NotificationWorker.timers (NotificationWorker.start now s)
       = NotificationWorker.nextTimer s :: NotificationWorker.timers s
    /\ NotificationWorker.interval (NotificationWorker.start now s)
       = Some (NotificationWorker.nextTimer s).
Proof.
  destruct (NotificationWorker.isRunning s) eqn:R.
  - unfold NotificationWorker.start, NotificationWorker.startCall,
           NotificationWorker.stop, NotificationWorker.log.
    rewrite R. cbn [negb NotificationWorker.isRunning NotificationWorker.console
                    NotificationWorker.starting NotificationWorker.timers].
    do 5 (split; [reflexivity|]).
    destruct (NotificationWorker.interval s) as [h|]; [|reflexivity].
    split; [reflexivity | apply clearInterval_cancels].
  - unfold NotificationWorker.start, NotificationWorker.startResume,
           NotificationWorker.startCall, NotificationWorker.stop,
           NotificationWorker.log.
    rewrite R. cbn [negb NotificationWorker.isRunning NotificationWorker.timers
                    NotificationWorker.starting NotificationWorker.db
                    NotificationWorker.nextTimer].
    destruct (NotificationWorker.checkForNotifications Models.Notification now
                (NotificationWorker.db s)) as [d c].
    cbn. auto 10.
Qed.

(** C8, on the program.  SIGTERM arrives while [start] waits for its
    first sweep: [stop] finds no handle and cancels nothing, and when
    [start] resumes it creates the timer.  The worker is then stopped with
    a live timer, whose ticks still sweep.  A second [start] adds a second
    timer, and the [stop] after it cancels that one only: the first timer
    is never cancelled. *)
Theorem stop_during_start_leaves_a_timer :
  let s1 := NotificationWorker.run (NotificationWorker.create Sample.db1)
              [NotificationWorker.StartCall;
               NotificationWorker.SIGTERM;
               NotificationWorker.StartResume Sample.jan16] in
  let s2 := NotificationWorker.run s1
              [NotificationWorker.StartCall;
               NotificationWorker.StartResume Sample.jan17] in
  let s3 := NotificationWorker.run s2 [NotificationWorker.Stop] in
  (NotificationWorker.isRunning s1 = false
   /\ NotificationWorker.timers s1 = [0]
   /\ NotificationWorker.console s1
      = [NotificationWorker.Starting; NotificationWorker.Checking;
         NotificationWorker.SignalReceived "SIGTERM"; NotificationWorker.Stopped;
         NotificationWorker.SendingReminders 1;
         NotificationWorker.WorkerError
           "TypeError: Cannot read properties of undefined (reading 'create')"]
   /\ NotificationWorker.console
        (NotificationWorker.step s1 (NotificationWorker.Tick 0 Sample.jan17))
      = NotificationWorker.console s1
        ++ [NotificationWorker.Checking; NotificationWorker.SendingReminders 1;
            NotificationWorker.WorkerError
              "TypeError: Cannot read properties of undefined (reading 'create')"])
  /\ (NotificationWorker.isRunning s2 = true
      /\ NotificationWorker.timers s2 = [1; 0])
  /\ (NotificationWorker.isRunning s3 = false
      /\ NotificationWorker.timers s3 = [0]).
Proof. vm_compute. repeat split. Qed.

(** When nothing comes between the two turns of any [start], the worker
    has one timer while it runs and none while it is stopped; a call is a
    [start] at an instant, or a [stop]. *)
Lemma uninterrupted_starts_keep_one_timer (calls : list (option Date)) (d : DB) :
  let s := fold_left (fun s (c : option Date) =>
                        match c with
                        | Some now => NotificationWorker.start now s
                        | None => NotificationWorker.stop s
                        end)
                     calls (NotificationWorker.create d) in
  NotificationWorker.starting s = 0
  /\ if NotificationWorker.isRunning s
     then exists h, NotificationWorker.interval s = Some h
                    /\ NotificationWorker.timers s = [h]
     else NotificationWorker.timers s = [].
Proof.
  cbv zeta.
  assert (H0 : NotificationWorker.starting (NotificationWorker.create d) = 0
               /\ if NotificationWorker.isRunning (NotificationWorker.create d)
                  then exists h, NotificationWorker.interval
                                   (NotificationWorker.create d) = Some h
                                 /\ NotificationWorker.timers
                                      (NotificationWorker.create d) = [h]
                  else NotificationWorker.timers (NotificationWorker.create d) = [])
    by (split; reflexivity).
  revert H0. generalize (NotificationWorker.create d).
  induction calls as [|[now|] calls IH]; intros s Hs; [exact Hs| |];
    cbn [fold_left]; apply IH; clear IH; destruct Hs as [Hw Ht];
    [pose proof (worker_calls s now) as Hc
    | pose proof (worker_calls s 0%Z) as Hc].
  - destruct (NotificationWorker.isRunning s) eqn:R.
    + destruct Hc as (Hcall & -> & _). rewrite Hcall. cbn. auto.
    + destruct Hc as (_ & _ & _ & _ & -> & -> & -> & ->).
      rewrite Ht. split; [exact Hw|]. eauto.
  - destruct (NotificationWorker.isRunning s) eqn:R.
    + destruct Hc as (_ & _ & -> & _ & -> & Hi). split; [exact Hw|].
      destruct Ht as (h & Hh & Hts). rewrite Hh in Hi. destruct Hi as [-> _].
      rewrite Hts. unfold NotificationWorker.clearInterval. simpl.
      rewrite Nat.eqb_refl. reflexivity.
    + destruct Hc as (-> & _). cbn. auto.
Qed.

(** ** Escalation *)

(** What the sweep pushes for an active allocation without an active
    log for the current week: a reminder; above week 2 an alert as well;
    up to week 2 nothing but reminders, for any allocation. *)
Lemma escalation_intents (tz : Z) (now : Date) (d : DB) (a : CourseAllocation.t) :
  let week := RedisWorker.currentWeek tz now in
  let produced := RedisWorker.checkOverdueLogs tz now d [] in
  In a (allocations d) ->
  CourseAllocation.isActive a = true ->
  RedisWorker.activityLog d a week = None ->
  In (RedisWorker.mkIntent RedisWorker.REMINDER_FACILITATOR
        (CourseAllocation.facilitatorId a) None (CourseAllocation.id a) week now)
     produced
  /\ ((2 < week)%Z ->
      In (RedisWorker.mkIntent RedisWorker.ALERT_MANAGER
            (CourseAllocation.facilitatorId a) None (CourseAllocation.id a) week now)
         produced)
  /\ ((week <= 2)%Z ->
      Forall (fun i => RedisWorker.type i = RedisWorker.REMINDER_FACILITATOR)
             produced).
Proof.
  intros week produced Ha Hact Hlog.
  assert (Hprod : produced
                  = rev (flat_map (intentsOf d week now)
                           (filter CourseAllocation.isActive (allocations d)))).
  { subst produced. unfold RedisWorker.checkOverdueLogs.
    rewrite sweepWeek_pushes, app_nil_r. reflexivity. }
  assert (Hin : In a (filter CourseAllocation.isActive (allocations d))).
  { apply filter_In. auto. }
  repeat split.
  - rewrite Hprod, <- in_rev, in_flat_map. exists a. split; [exact Hin|].
    unfold intentsOf. rewrite Hlog. left. reflexivity.
  - intros Hweek. rewrite Hprod, <- in_rev, in_flat_map.
    exists a. split; [exact Hin|].
    unfold intentsOf. rewrite Hlog.
    apply Z.ltb_lt in Hweek. rewrite Hweek. right. left. reflexivity.
  - intros Hweek. rewrite Hprod. apply Forall_rev, Forall_flat_map.
    apply Forall_forall. intros b _. unfold intentsOf.
    destruct (RedisWorker.activityLog d b week); [constructor|].
    assert (E : (2 <? week)%Z = false) by (apply Z.ltb_ge; exact Hweek).
    rewrite E. repeat constructor.
Qed.

(** The scenario of week 1: on 5 January 2026 the sweep pushes the
    reminder only. *)
Example escalation_week_one :
  RedisWorker.currentWeek 0 Sample.jan05 = 1%Z
  /\ map RedisWorker.type
         (RedisWorker.checkOverdueLogs 0 Sample.jan05 Sample.db1 [])
     = [RedisWorker.REMINDER_FACILITATOR].
Proof. vm_compute. split; reflexivity. Qed.

(** A reminder whose rows exist is mailed to the address of the
    facilitator, when the relay takes it. *)
Lemma reminder_reaches_the_facilitator sendMail manager_of d i f a md messageId :
  RedisWorker.type i = RedisWorker.REMINDER_FACILITATOR ->
  RedisWorker.findFacilitator d i = Some f ->
  RedisWorker.findAllocation d i = Some a ->
  NotificationService.module_of d a = Some md ->
  sendMail (RedisWorker.mkMail (Facilitator.email f) RedisWorker.reminderFacilitator
              (Some (Facilitator.name f)) (CourseModule.name md)
              (RedisWorker.weekNumber i)) = Some messageId ->
  fst (RedisWorker.processNotification sendMail manager_of d i)
  = [RedisWorker.mkMail (Facilitator.email f) RedisWorker.reminderFacilitator
       (Some (Facilitator.name f)) (CourseModule.name md)
       (RedisWorker.weekNumber i)].
Proof.
  intros Ht Hf Ha Hmd Hsend.
  unfold RedisWorker.processNotification, RedisWorker.handleReminderFacilitator,
         RedisWorker.sendEmail.
  rewrite Ht, Hf, Ha, Hmd, Hsend. reflexivity.
Qed.



(** ** Transport failures *)

Lemma rpop_last (q : list RedisWorker.Intent) (i : RedisWorker.Intent) :
  RedisWorker.rpop (q ++ [i]) = (Some i, q).
Proof.
  unfold RedisWorker.rpop. rewrite rev_app_distr. simpl.
  rewrite rev_involutive. reflexivity.
Qed.

(** A handler delivers only what the transport accepted. *)
Lemma processNotification_delivers_accepted sendMail manager_of d i :
  Forall (fun m => exists messageId, sendMail m = Some messageId)
         (fst (RedisWorker.processNotification sendMail manager_of d i)).
Proof.
  assert (Hsend : forall m c,
             Forall (fun m => exists messageId, sendMail m = Some messageId)
                    (fst (let (mails, c0) := RedisWorker.sendEmail sendMail m in
                          (mails, c0 ++ c)))).
  { intros m c. unfold RedisWorker.sendEmail.
    destruct (sendMail m) as [messageId|] eqn:Hm; simpl; eauto. }
  assert (Hto : forall t tpl nm,
             Forall (fun m => exists messageId, sendMail m = Some messageId)
                    (fst (RedisWorker.toManager sendMail manager_of t tpl nm d i))).
  { intros t tpl nm. unfold RedisWorker.toManager.
    destruct (RedisWorker.findAllocation d i) as [a|]; simpl; auto.
    destruct (manager_of d a) as [[mg|]|e]; simpl; auto.
    destruct (Manager.email mg); simpl; auto.
    destruct nm; simpl; auto.
    destruct (NotificationService.module_of d a); simpl; auto. }
    unfold RedisWorker.processNotification.
  destruct (RedisWorker.type i).
  - apply Hto.
  - apply Hto.
  - unfold RedisWorker.handleReminderFacilitator.
    destruct (RedisWorker.findFacilitator d i); simpl; auto.
    destruct (RedisWorker.findAllocation d i) as [a|]; simpl; auto.
        destruct (NotificationService.module_of d a); simpl; auto.
  - apply Hto.
  - constructor.
Qed.

(** C5.  A tick of the dispatcher never writes the database, whatever the
    transport answers: no row of the ledger is marked delivered, marked
    read or deleted by it (the dispatcher does not call [markAsDelivered]).
    The tick removes the intent at the end of the queue and pushes nothing
    back, and it delivers only mails that the transport accepted: when the
    transport fails, the intent is gone, nothing is delivered, and the
    ledger is as it was. *)
Theorem failed_transport_drops_intent
    (sendMail : RedisWorker.MailOptions -> option string)
    (manager_of : DB -> CourseAllocation.t -> Completion (option Manager.t))
    (w : RedisWorker.World) :
  RedisWorker.db (RedisWorker.drainTick sendMail manager_of w) = RedisWorker.db w
  /\ map (fun n => (Notification.id n, Notification.isDelivered n,
                    Notification.isRead n))
         (notifications (RedisWorker.db (RedisWorker.drainTick sendMail manager_of w)))
     = map (fun n => (Notification.id n, Notification.isDelivered n,
                      Notification.isRead n))
           (notifications (RedisWorker.db w))
  /\ (exists mails,
        RedisWorker.delivered (RedisWorker.drainTick sendMail manager_of w)
        = RedisWorker.delivered w ++ mails
        /\ Forall (fun m => exists messageId, sendMail m = Some messageId) mails)
  /\ forall q i,
       RedisWorker.queue w = q ++ [i] ->
       RedisWorker.queue (RedisWorker.drainTick sendMail manager_of w) = q
       /\ ((forall m, sendMail m = None) ->
           RedisWorker.delivered (RedisWorker.drainTick sendMail manager_of w)
           = RedisWorker.delivered w).
Proof.
  assert (Hdb : RedisWorker.db (RedisWorker.drainTick sendMail manager_of w)
                = RedisWorker.db w).
  { unfold RedisWorker.drainTick.
    destruct (RedisWorker.rpop (RedisWorker.queue w)) as [[i|] rest]; auto.
    destruct (RedisWorker.processNotification sendMail manager_of
                (RedisWorker.db w) i). reflexivity. }
  assert (Hmails : exists mails,
             RedisWorker.delivered (RedisWorker.drainTick sendMail manager_of w)
             = RedisWorker.delivered w ++ mails
             /\ Forall (fun m => exists messageId, sendMail m = Some messageId) mails).
  { unfold RedisWorker.drainTick.
    destruct (RedisWorker.rpop (RedisWorker.queue w)) as [[i|] rest].
    - pose proof (processNotification_delivers_accepted sendMail manager_of
                    (RedisWorker.db w) i) as Hacc.
      destruct (RedisWorker.processNotification sendMail manager_of
                  (RedisWorker.db w) i) as [mails c].
      exists mails. auto.
    - exists []. rewrite app_nil_r. auto. }
  split; [exact Hdb|]. split; [rewrite Hdb; reflexivity|].
  split; [exact Hmails|].
  intros q i Hq. split.
  - unfold RedisWorker.drainTick. rewrite Hq, rpop_last.
    destruct (RedisWorker.processNotification sendMail manager_of
                (RedisWorker.db w) i). reflexivity.
  - intros Hfail. destruct Hmails as (mails & -> & Hacc).
    destruct Hacc as [|m mails (messageId & Hm) _].
    + apply app_nil_r.
    + rewrite Hfail in Hm. discriminate.
Qed.

(** The reminder intent of 16 January is dispatched while the relay is
    down: the queue is left with the alert, nothing is delivered, and the
    database is as it was. *)
Example failed_dispatch_drops_the_reminder :
  let w := RedisWorker.mkWorld Sample.db1
             (RedisWorker.checkOverdueLogs 0 Sample.jan16 Sample.db1 []) [] [] in
  let w' := RedisWorker.drainTick Sample.noTransport Models.allocationManager w in
  map RedisWorker.type (RedisWorker.queue w') = [RedisWorker.ALERT_MANAGER]
  /\ RedisWorker.delivered w' = []
  /\ RedisWorker.console w'
     = [RedisWorker.EmailFailed "ann@example.org";
        RedisWorker.Processed RedisWorker.REMINDER_FACILITATOR 3]
  /\ RedisWorker.db w' = Sample.db1.
Proof. vm_compute. repeat split; reflexivity. Qed.

(** ** The error middleware *)

Lemma knownNames_spec (nm : string) :
  existsb (String.eqb nm) knownNames = false ->
  (nm =? "SequelizeValidationError")%string = false
  /\ (nm =? "SequelizeUniqueConstraintError")%string = false
  /\ (nm =? "SequelizeForeignKeyConstraintError")%string = false
  /\ (nm =? "JsonWebTokenError")%string = false
  /\ (nm =? "TokenExpiredError")%string = false
  /\ (nm =? "ValidationError")%string = false
  /\ (nm =? "NotFoundError")%string = false
  /\ (nm =? "AuthorizationError")%string = false.
Proof.
  unfold knownNames. cbn [existsb]. intros H.
  repeat (apply orb_false_elim in H as [? H]). repeat split; assumption.
Qed.

(** X8.  The reply of the error middleware carries a stack trace only
    when [NODE_ENV] is ["development"], and then only for an error whose
    name has no branch of its own; every reply has [success = false]. *)
Theorem errorHandler_stack_only_in_development
    (nodeEnv : option string) (err : ErrorHandler.Err) :
  ErrorHandler.success (ErrorHandler.errorHandler nodeEnv err) = false
  /\ (ErrorHandler.replyStack (ErrorHandler.errorHandler nodeEnv err) = None
      \/ (nodeEnv = Some "development"%string
          /\ existsb (String.eqb (ErrorHandler.name err)) knownNames = false
          /\ ErrorHandler.replyStack (ErrorHandler.errorHandler nodeEnv err)
             = Some (ErrorHandler.stack err))).
Proof.
  unfold ErrorHandler.errorHandler.
  destruct (existsb (String.eqb (ErrorHandler.name err)) knownNames) eqn:K.
  - unfold knownNames in K. cbn [existsb] in K.
    repeat match goal with
           | |- context [if (?a =? ?b)%string then _ else _] =>
               destruct (a =? b)%string eqn:?; [split; [reflexivity | left; reflexivity]|]
           end.
    simpl in K. discriminate.
  - destruct (knownNames_spec _ K) as (-> & -> & -> & -> & -> & -> & -> & ->).
    cbn [ErrorHandler.success ErrorHandler.replyStack].
    split; [reflexivity|].
    destruct nodeEnv as [env|]; [|left; reflexivity].
    destruct (env =? "development")%string eqn:E; [|left; reflexivity].
    apply String.eqb_eq in E. subst env. right. auto.
Qed.

(** X9.  The three error classes of the module through the middleware:
    [ValidationError] answers 400 with the message as it is, also when it
    is empty; [NotFoundError] answers 404 and [AuthorizationError] 403,
    each with its message or, when that is empty, its default text.  None
    of them carries field errors or a stack, in any environment. *)
Theorem custom_errors_through_errorHandler
    (nodeEnv : option string) (message stack : string) :
  ErrorHandler.errorHandler nodeEnv (ErrorHandler.ValidationError message stack)
  = ErrorHandler.mkReply 400 false message None None
  /\ ErrorHandler.errorHandler nodeEnv (ErrorHandler.NotFoundError message stack)
     = ErrorHandler.mkReply 404 false
         (if (message =? "")%string then "Resource not found"%string else message)
         None None
  /\ ErrorHandler.errorHandler nodeEnv (ErrorHandler.AuthorizationError message stack)
     = ErrorHandler.mkReply 403 false
         (if (message =? "")%string then "Access denied"%string else message)
         None None.
Proof. repeat split. Qed.

(** An error whose name has no branch answers with its own
    [statusCode], or 500 when it has none or has 0, and with its message
    or ["Internal server error"]; an error whose name has a branch answers
    400, 401, 403, 404 or 409 whatever [statusCode] it carries. *)
Lemma errorHandler_status
    (nodeEnv : option string) (err : ErrorHandler.Err) :
  if existsb (String.eqb (ErrorHandler.name err)) knownNames
  then In (ErrorHandler.status (ErrorHandler.errorHandler nodeEnv err))
          [400; 401; 403; 404; 409]
  else ErrorHandler.status (ErrorHandler.errorHandler nodeEnv err)
       = match ErrorHandler.statusCode err with
         | Some (S c) => S c
         | _ => 500
         end
       /\ ErrorHandler.replyMessage (ErrorHandler.errorHandler nodeEnv err)
          = if (ErrorHandler.message err =? "")%string
            then "Internal server error"%string
            else ErrorHandler.message err.
Proof.
  unfold ErrorHandler.errorHandler.
  destruct (existsb (String.eqb (ErrorHandler.name err)) knownNames) eqn:K.
  - unfold knownNames in K. cbn [existsb] in K.
    repeat match goal with
           | |- context [if (?a =? ?b)%string then _ else _] =>
               destruct (a =? b)%string eqn:?; [simpl; tauto|]
           end.
    simpl in K. discriminate.
  - destruct (knownNames_spec _ K) as (-> & -> & -> & -> & -> & -> & -> & ->).
    cbn [ErrorHandler.status ErrorHandler.replyMessage].
    split; [|reflexivity].
    unfold ErrorHandler.orStatus.
    destruct (ErrorHandler.statusCode err) as [[|c]|]; reflexivity.
Qed.

(** ** The queue and the dispatcher *)

Lemma pushAll_rev (l q : list RedisWorker.Intent) : pushAll l q = rev l ++ q.
Proof.
  unfold pushAll. revert q. induction l as [|i l IH]; intros q; simpl; [reflexivity|].
  rewrite IH. unfold RedisWorker.lpush. rewrite <- app_assoc. reflexivity.
Qed.

(** X10.  The list is a queue: of intents pushed with [lpush], [rpop]
    takes the one pushed first and leaves the others as they were pushed,
    also behind intents the list held before; on the empty list it takes
    nothing. *)
Theorem queue_is_first_in_first_out
    (i : RedisWorker.Intent) (l : list RedisWorker.Intent)
    (old : RedisWorker.Intent) (q : list RedisWorker.Intent) :
  RedisWorker.rpop (pushAll (i :: l) []) = (Some i, pushAll l [])
  /\ RedisWorker.rpop (pushAll l (q ++ [old])) = (Some old, pushAll l q)
  /\ RedisWorker.rpop [] = (None, []).
Proof.
  rewrite !pushAll_rev, !app_nil_r. simpl rev.
  split; [apply rpop_last|]. split; [|reflexivity].
  rewrite app_assoc. apply rpop_last.
Qed.

Section OneMail.

Variable sendMail : RedisWorker.MailOptions -> option string.
Variable manager_of : DB -> CourseAllocation.t -> Completion (option Manager.t).



Lemma sendEmail_one (m : RedisWorker.MailOptions) (c : list RedisWorker.Console)
    (P : RedisWorker.MailOptions -> Prop) :
  P m ->
  let r := (let (mails, c0) := RedisWorker.sendEmail sendMail m in (mails, c0 ++ c)) in
  length (fst r) <= 1 /\ Forall P (fst r).
Proof.
  intros HP. unfold RedisWorker.sendEmail.
  destruct (sendMail m); simpl; auto.
Qed.

Lemma toManager_one t tpl nm d i :
  Some tpl = templateOf (RedisWorker.type i) ->
  length (fst (RedisWorker.toManager sendMail manager_of t tpl nm d i)) <= 1
  /\ Forall (mailOf d i) (fst (RedisWorker.toManager sendMail manager_of t tpl nm d i)).
Proof.
  intros Htpl. unfold RedisWorker.toManager.
  destruct (RedisWorker.findAllocation d i) as [a|] eqn:Ha; simpl; auto.
  destruct (manager_of d a) as [[mg|]|e]; simpl; auto.
  destruct (Manager.email mg); simpl; auto.
  destruct nm; simpl; auto.
  destruct (NotificationService.module_of d a) as [md|] eqn:Hmd; simpl; auto.
  apply sendEmail_one. unfold mailOf. simpl. eauto 8.
Qed.

Lemma processNotification_one d i :
  length (fst (RedisWorker.processNotification sendMail manager_of d i)) <= 1
  /\ Forall (mailOf d i) (fst (RedisWorker.processNotification sendMail manager_of d i)).
Proof.
  unfold RedisWorker.processNotification.
  destruct (RedisWorker.type i) eqn:Ht.
  - apply toManager_one. rewrite Ht. reflexivity.
  - apply toManager_one. rewrite Ht. reflexivity.
  - unfold RedisWorker.handleReminderFacilitator.
    destruct (RedisWorker.findFacilitator d i); simpl; auto.
    destruct (RedisWorker.findAllocation d i) as [a|] eqn:Ha; simpl; auto.
    destruct (NotificationService.module_of d a) as [md|] eqn:Hmd; simpl; auto.
    apply sendEmail_one. unfold mailOf. simpl. rewrite Ht. eauto 8.
  - apply toManager_one. rewrite Ht. reflexivity.
  - simpl. auto.
Qed.

End OneMail.

(** X11.  For one intent the dispatcher sends at most one mail, and a
    mail it sends has the template of the type of the intent, the week
    number of the intent and the name of the module of the allocation of
    the intent; for an intent of an unknown type, or whose allocation row
    does not exist, nothing is sent. *)
Theorem one_mail_per_intent_with_its_data
    (sendMail : RedisWorker.MailOptions -> option string)
    (manager_of : DB -> CourseAllocation.t -> Completion (option Manager.t))
    (d : DB) (i : RedisWorker.Intent) :
  length (fst (RedisWorker.processNotification sendMail manager_of d i)) <= 1
  /\ Forall (fun m =>
               Some (RedisWorker.template m) = templateOf (RedisWorker.type i)
               /\ RedisWorker.m_weekNumber m = RedisWorker.weekNumber i
               /\ exists a md,
                    Sequelize.findOne
                      (fun a => CourseAllocation.id a =? RedisWorker.allocationId i)
                      (allocations d) = Some a
                    /\ NotificationService.module_of d a = Some md
                    /\ RedisWorker.m_moduleName m = CourseModule.name md)
            (fst (RedisWorker.processNotification sendMail manager_of d i)).
Proof. apply processNotification_one. Qed.

(** X12.  A tick of the dispatcher takes exactly one intent off a queue
    that has one and delivers at most one mail; on an empty queue it does
    nothing at all. *)
Theorem drainTick_takes_one_intent
    (sendMail : RedisWorker.MailOptions -> option string)
    (manager_of : DB -> CourseAllocation.t -> Completion (option Manager.t))
    (w : RedisWorker.World) :
  length (RedisWorker.queue (RedisWorker.drainTick sendMail manager_of w))
  = pred (length (RedisWorker.queue w))
  /\ length (RedisWorker.delivered (RedisWorker.drainTick sendMail manager_of w))
     <= S (length (RedisWorker.delivered w))
  /\ match RedisWorker.queue w with
     | [] => RedisWorker.drainTick sendMail manager_of w = w
     | _ :: _ => True
     end.
Proof.
  unfold RedisWorker.drainTick, RedisWorker.rpop.
  destruct (rev (RedisWorker.queue w)) as [|i r] eqn:Hrev.
  - assert (Hq : RedisWorker.queue w = []).
    { rewrite <- (rev_involutive (RedisWorker.queue w)), Hrev. reflexivity. }
    rewrite Hq. simpl. auto.
  - pose proof (processNotification_one sendMail manager_of (RedisWorker.db w) i)
      as [Hone _].
    destruct (RedisWorker.processNotification sendMail manager_of
                (RedisWorker.db w) i) as [mails c].
    cbn [RedisWorker.queue RedisWorker.delivered fst] in *.
    assert (Hlen : length (RedisWorker.queue w) = S (length r)).
    { rewrite <- (length_rev (RedisWorker.queue w)), Hrev. reflexivity. }
        rewrite length_rev, Hlen, length_app.
        split; [reflexivity|]. split; [lia|].
    destruct (RedisWorker.queue w); [discriminate Hlen | exact I].
Qed.

(** ** The Redis-backed sweep, continued *)




(** The year from 1 January to 1 January has at most 366 days. *)
Lemma TimeFromYear_step (y : Z) :
  (JSDate.TimeFromYear (y + 1) - JSDate.TimeFromYear y <= 366 * JSDate.msPerDay)%Z.
Proof.
  unfold JSDate.TimeFromYear, JSDate.DayFromYear, JSDate.msPerDay.
  Z.div_mod_to_equations. lia.
Qed.

(** X14.  At every instant whose local year is not one of the years 0
    to 99, in every time zone, the week number of the sweep lies between
    0 and 53. *)
Theorem currentWeek_between_0_and_53 (tz : Z) (now : Date) :
  (JSDate.YearFromTime (now + tz) < 0 \/ 99 < JSDate.YearFromTime (now + tz))%Z ->
  (0 <= RedisWorker.currentWeek tz now <= 53)%Z.
Proof.
  intros Hy. split; [apply (currentWeek_zero_iff tz now Hy)|].
  unfold RedisWorker.currentWeek, JSDate.startOfYear.
  rewrite (fullYear_same Hy).
  pose proof (TimeFromYear_YearFromTime (now + tz)) as [_ Hlt].
  pose proof (TimeFromYear_step (JSDate.YearFromTime (now + tz))) as Hstep.
  assert (Hw : (0 < RedisWorker.weekMs)%Z) by reflexivity.
  match goal with
  | |- (JSDate.ceilDiv ?e _ <= _)%Z => pose proof (ceilDiv_spec e Hw) as [Hc _]
  end.
  unfold RedisWorker.weekMs, JSDate.msPerDay in *. lia.
Qed.

(** X14, witness: 16 January 2026 in UTC, week 3. *)
Lemma currentWeek_between_0_and_53_witness :
  JSDate.YearFromTime (Sample.jan16 + 0) = 2026%Z
  /\ RedisWorker.currentWeek 0 Sample.jan16 = 3%Z
  /\ (0 <= RedisWorker.currentWeek 0 Sample.jan16 <= 53)%Z.
Proof.
  assert (Hy : JSDate.YearFromTime (Sample.jan16 + 0) = 2026%Z)
    by (vm_compute; reflexivity).
  split; [exact Hy|]. split; [vm_compute; reflexivity|].
  apply (@currentWeek_between_0_and_53 0%Z Sample.jan16).
  rewrite Hy. right. lia.
Defined.

(** In the years 0 to 99 the constructor reads the year as 1900 to 1999:
    at the first instant of the year 50 the first of January it builds is
    that of 1950, and the week number is far below 0. *)
Example currentWeek_in_the_year_50 :
  JSDate.YearFromTime (JSDate.TimeFromYear 50 + 0) = 50%Z
  /\ JSDate.startOfYear 0 (JSDate.TimeFromYear 50) = JSDate.TimeFromYear 1950
  /\ RedisWorker.currentWeek 0 (JSDate.TimeFromYear 50) = (-99137)%Z.
Proof. vm_compute. repeat split; reflexivity. Qed.

Lemma activityLog_none_outside_range d a week :
  Forall (fun l => (1 <= ActivityTracker.weekNumber l <= 52)%Z) (activityLogs d) ->
  (week < 1 \/ 52 < week)%Z ->
  RedisWorker.activityLog d a week = None.
Proof.
  intros Hlogs Hweek. unfold RedisWorker.activityLog, Sequelize.findOne.
  induction Hlogs as [|l logs Hl _ IH]; simpl; [reflexivity|].
  assert (E : (ActivityTracker.weekNumber l =? week)%Z = false)
    by (apply Z.eqb_neq; lia).
  rewrite E, andb_false_r. simpl. exact IH.
Qed.

Lemma intents_of_active_allocation tz now d a :
  In a (allocations d) ->
  CourseAllocation.isActive a = true ->
  forall i, In i (intentsOf d (RedisWorker.currentWeek tz now) now a) ->
            In i (RedisWorker.checkOverdueLogs tz now d []).
Proof.
  intros Ha Hact i Hi. unfold RedisWorker.checkOverdueLogs.
  rewrite sweepWeek_pushes, app_nil_r, <- in_rev, in_flat_map.
  exists a. split; [apply filter_In; auto | exact Hi].
Qed.

(** X15.  Activity logs carry a week between 1 and 52, so in a week the
    sweep numbers 0 or 53 no allocation has a log: the sweep then pushes a
    reminder for every active allocation, and in week 53 an alert as
    well, whatever the facilitators have filed. *)
Theorem sweep_outside_weeks_1_to_52_flags_everyone
    (tz : Z) (now : Date) (d : DB) (a : CourseAllocation.t) :
  let week := RedisWorker.currentWeek tz now in
  Forall (fun l => (1 <= ActivityTracker.weekNumber l <= 52)%Z) (activityLogs d) ->
  (week < 1 \/ 52 < week)%Z ->
  In a (allocations d) ->
  CourseAllocation.isActive a = true ->
  In (RedisWorker.mkIntent RedisWorker.REMINDER_FACILITATOR
        (CourseAllocation.facilitatorId a) None (CourseAllocation.id a) week now)
     (RedisWorker.checkOverdueLogs tz now d [])
  /\ ((52 < week)%Z ->
      In (RedisWorker.mkIntent RedisWorker.ALERT_MANAGER
            (CourseAllocation.facilitatorId a) None (CourseAllocation.id a) week now)
         (RedisWorker.checkOverdueLogs tz now d [])).
Proof.
  intros week Hlogs Hweek Ha Hact.
  pose proof (activityLog_none_outside_range d a Hlogs Hweek) as Hnone.
  split; [|intros H53]; apply (intents_of_active_allocation tz now d a Ha Hact);
    fold week; unfold intentsOf; rewrite Hnone.
  - left. reflexivity.
  - assert (E : (2 <? week)%Z = true) by (apply Z.ltb_lt; lia).
    rewrite E. right. left. reflexivity.
Qed.

(** X15, witness: 31 December 2026 is in week 53; Ann has filed weeks 3
    and 52 and is reminded, and her manager alerted, all the same. *)
Lemma sweep_outside_weeks_1_to_52_flags_everyone_witness :
  RedisWorker.currentWeek 0 Fixtures.dec31 = 53%Z
  /\ Forall (fun l => (1 <= ActivityTracker.weekNumber l <= 52)%Z)
            (activityLogs Fixtures.dbLogged)
  /\ In (RedisWorker.mkIntent RedisWorker.REMINDER_FACILITATOR 1 None 1 53
           Fixtures.dec31)
        (RedisWorker.checkOverdueLogs 0 Fixtures.dec31 Fixtures.dbLogged [])
  /\ In (RedisWorker.mkIntent RedisWorker.ALERT_MANAGER 1 None 1 53 Fixtures.dec31)
        (RedisWorker.checkOverdueLogs 0 Fixtures.dec31 Fixtures.dbLogged []).
Proof.
  assert (Hweek : RedisWorker.currentWeek 0 Fixtures.dec31 = 53%Z)
    by (vm_compute; reflexivity).
  assert (Hlogs : Forall (fun l => (1 <= ActivityTracker.weekNumber l <= 52)%Z)
                         (activityLogs Fixtures.dbLogged)).
  { repeat constructor; simpl; lia. }
  pose proof (@sweep_outside_weeks_1_to_52_flags_everyone 0%Z Fixtures.dec31
                Fixtures.dbLogged (Sample.annAlgebra 0%Z)) as H.
    cbv zeta in H. rewrite Hweek in H.
  assert (Hout : (53 < 1 \/ 52 < 53)%Z) by (right; lia).
  destruct (H Hlogs Hout (or_introl eq_refl) eq_refl) as [Hreminder Halert].
  split; [exact Hweek|]. split; [exact Hlogs|].
  split; [exact Hreminder | apply Halert; lia].
Defined.

(** ** Filing and deleting an activity log *)

Lemma logPairs_existsb (aid : UUID) (week : Z) (d : DB) :
  existsb (fun l => (ActivityTracker.allocationId l =? aid)
                    && (ActivityTracker.weekNumber l =? week)%Z)
          (activityLogs d) = true
  <-> In (aid, week) (logPairs d).
Proof.
  unfold logPairs. rewrite existsb_exists, in_map_iff. split.
  - intros (l & Hl & H). apply andb_prop in H as [Ha Hw].
    apply Nat.eqb_eq in Ha. apply Z.eqb_eq in Hw. exists l. subst. auto.
  - intros (l & [= Ha Hw] & Hl). exists l. split; [exact Hl|].
    rewrite Ha, Hw, Nat.eqb_refl, Z.eqb_refl. reflexivity.
Qed.

(** The alert never gets to the ledger: it throws, for a missing row or
    at [Notification.create], and the database is as it was. *)
Lemma sendSubmissionAlertToManager_ledger now l d :
  SubmissionAlert.sendSubmissionAlertToManager now l d
  = (d, Threw match SubmissionAlert.submissionSpec d l with
              | Threw e => e
              | Returned _ => Models.undefinedRead "create"
              end).
Proof.
  unfold SubmissionAlert.sendSubmissionAlertToManager.
  destruct (SubmissionAlert.submissionSpec d l); reflexivity.
Qed.

Lemma sendSubmissionAlertToManager_tables now l d :
  activityLogs (fst (SubmissionAlert.sendSubmissionAlertToManager now l d))
  = activityLogs d
  /\ allocations (fst (SubmissionAlert.sendSubmissionAlertToManager now l d))
     = allocations d.
Proof. rewrite sendSubmissionAlertToManager_ledger. auto. Qed.

(** When and how [POST /] answers 201. *)
Lemma createActivityLog_created user b now d d' log :
  ActivityRoutes.createActivityLog user b now d = (d', ActivityRoutes.Created log) ->
  Routes.role user = facilitator
  /\ exists aid week a,
       ActivityRoutes.allocationId b = Some (ActivityRoutes.BUuid aid)
       /\ ActivityRoutes.weekNumber b = Some (ActivityRoutes.BInt week)
       /\ (1 <= week <= 52)%Z
       /\ Sequelize.findOne
            (fun a => (CourseAllocation.id a =? aid) && CourseAllocation.isActive a)
            (allocations d) = Some a
       /\ CourseAllocation.facilitatorId a = Routes.id user
       /\ ~ In (aid, week) (logPairs d)
       /\ d' = fst (SubmissionAlert.sendSubmissionAlertToManager now
                      (snd (filed aid week d)) (fst (filed aid week d))).
Proof.
  unfold ActivityRoutes.createActivityLog.
  destruct (Routes.role user); [discriminate|].
  destruct (ActivityRoutes.validBody b) eqn:V; [|discriminate]. cbn [negb].
  destruct (ActivityRoutes.allocationId b) as [[aid| | | |]|] eqn:Ha; try discriminate.
  destruct (ActivityRoutes.weekNumber b) as [[|week| | |]|] eqn:Hw; try discriminate.
  destruct (Sequelize.findOne _ (allocations d)) as [a|] eqn:Hfind; [|discriminate].
  destruct (CourseAllocation.facilitatorId a =? Routes.id user) eqn:Hown;
    [|discriminate]. cbn [negb].
  destruct (Sequelize.findOne _ (activityLogs d)); [discriminate|].
  unfold ActivityRoutes.create.
  destruct (existsb _ (activityLogs d)) eqn:Hpair; [discriminate|].
  destruct (SubmissionAlert.sendSubmissionAlertToManager now _ _) as [d2 o] eqn:Hsend.
  intros [= <- _]. split; [reflexivity|].
  exists aid, week, a. repeat split; auto.
  - unfold ActivityRoutes.validBody in V. rewrite Hw in V.
        do 8 (apply andb_prop in V as [V _]). apply andb_prop in V as [_ V].
    simpl in V. lia.
  - unfold ActivityRoutes.validBody in V. rewrite Hw in V.
        do 8 (apply andb_prop in V as [V _]). apply andb_prop in V as [_ V].
    simpl in V. lia.
  - apply Nat.eqb_eq. exact Hown.
  - rewrite <- logPairs_existsb, Hpair. discriminate.
  - unfold filed. cbn [fst snd]. rewrite Hsend. reflexivity.
Qed.

(** Every other answer of [POST /] leaves the database as it was. *)
Lemma createActivityLog_failed user b now d d' code message :
  ActivityRoutes.createActivityLog user b now d
  = (d', ActivityRoutes.Failed code message) ->
  d' = d /\ In code [400; 403; 404; 409; 500].
Proof.
  unfold ActivityRoutes.createActivityLog.
  destruct (Routes.role user); [intros [= <- <- _]; simpl; auto|].
  destruct (ActivityRoutes.validBody b); cbn [negb];
    [|intros [= <- <- _]; simpl; auto].
  destruct (ActivityRoutes.allocationId b) as [[aid| | | |]|];
    try (intros [= <- <- _]; simpl; auto).
  destruct (ActivityRoutes.weekNumber b) as [[|week| | |]|];
    try (intros [= <- <- _]; simpl; auto).
  destruct (Sequelize.findOne _ (allocations d)) as [a|];
    [|intros [= <- <- _]; simpl; auto].
  destruct (CourseAllocation.facilitatorId a =? Routes.id user); cbn [negb];
    [|intros [= <- <- _]; simpl; auto].
  destruct (Sequelize.findOne _ (activityLogs d));
    [intros [= <- <- _]; simpl; tauto|].
  unfold ActivityRoutes.create.
  destruct (existsb _ (activityLogs d)); [intros [= <- <- _]; simpl; tauto|].
  destruct (SubmissionAlert.sendSubmissionAlertToManager now _ _). discriminate.
Qed.

(** X16.  [POST /] changes the database only when it answers 201, and
    then by one new active log for the allocation and week of the body
    (and by what the alert adds to the ledger).  It answers 201 only to a
    facilitator, for an active allocation of that facilitator, for a week
    between 1 and 52 and a pair (allocation, week) that no log row has
    yet.  Any other answer is 400, 403, 404, 409 or 500 and leaves the
    database untouched. *)
Theorem createActivityLog_outcomes
    (user : Routes.User) (b : ActivityRoutes.Body) (now : Date) (d : DB) :
  match ActivityRoutes.createActivityLog user b now d with
  | (d', ActivityRoutes.Created _) =>
      Routes.role user = facilitator
      /\ exists aid week a,
           ActivityRoutes.allocationId b = Some (ActivityRoutes.BUuid aid)
           /\ ActivityRoutes.weekNumber b = Some (ActivityRoutes.BInt week)
           /\ (1 <= week <= 52)%Z
           /\ In a (allocations d)
           /\ CourseAllocation.id a = aid
           /\ CourseAllocation.isActive a = true
           /\ CourseAllocation.facilitatorId a = Routes.id user
           /\ ~ In (aid, week) (logPairs d)
           /\ activityLogs d'
              = activityLogs d ++ [ActivityTracker.mk (nextId d) aid week true]
           /\ allocations d' = allocations d
  | (d', ActivityRoutes.Deleted) => False
  | (d', ActivityRoutes.Failed code _) =>
      d' = d /\ In code [400; 403; 404; 409; 500]
  end.
Proof.
  destruct (ActivityRoutes.createActivityLog user b now d) as [d' [log| |code message]] eqn:E.
  - apply createActivityLog_created in E
      as (Hrole & aid & week & a & Ha & Hw & Hrange & Hfind & Hown & Hnew & ->).
    split; [exact Hrole|]. exists aid, week, a.
    apply find_some in Hfind as [Hin Hmatch].
    apply andb_prop in Hmatch as [Hid Hact]. apply Nat.eqb_eq in Hid.
    destruct (sendSubmissionAlertToManager_tables now (snd (filed aid week d))
                (fst (filed aid week d))) as [Hlogs Hallocs].
    rewrite Hlogs, Hallocs. repeat split; auto; lia.
  - exfalso. revert E. unfold ActivityRoutes.createActivityLog.
    repeat match goal with
           | |- context [match ?x with _ => _ end] => destruct x
           | |- context [if ?x then _ else _] => destruct x
           end; discriminate.
  - apply (createActivityLog_failed _ _ _ _ E).
Qed.

Lemma find_pair_active_none (aid : UUID) (week : Z) (d : DB) :
  ~ In (aid, week) (logPairs d) ->
  Sequelize.findOne
    (fun l => (ActivityTracker.allocationId l =? aid)
              && (ActivityTracker.weekNumber l =? week)%Z
              && ActivityTracker.isActive l)
    (activityLogs d) = None.
Proof.
  intros Hnew. unfold Sequelize.findOne.
  destruct (find _ (activityLogs d)) as [l|] eqn:Hfind; [|reflexivity].
  exfalso. apply Hnew. apply find_some in Hfind as [Hin H].
  apply andb_prop in H as [H _]. apply logPairs_existsb, existsb_exists.
  exists l. auto.
Qed.

(** X17.  The alert to the manager cannot fail the request, and it
    always fails: for a facilitator who files a valid body for an own
    active allocation and a pair (allocation, week) that has no log row,
    [POST /] answers 201 and stores the log, while
    [sendSubmissionAlertToManager] throws and the ledger is as it was. *)
Theorem createActivityLog_succeeds_though_the_alert_throws
    (user : Routes.User) (b : ActivityRoutes.Body) (now : Date) (d : DB)
    (aid : UUID) (week : Z) (a : CourseAllocation.t) :
  Routes.role user = facilitator ->
  ActivityRoutes.validBody b = true ->
  ActivityRoutes.allocationId b = Some (ActivityRoutes.BUuid aid) ->
  ActivityRoutes.weekNumber b = Some (ActivityRoutes.BInt week) ->
  Sequelize.findOne
    (fun a => (CourseAllocation.id a =? aid) && CourseAllocation.isActive a)
    (allocations d) = Some a ->
  CourseAllocation.facilitatorId a = Routes.id user ->
  ~ In (aid, week) (logPairs d) ->
  (exists log d',
     ActivityRoutes.createActivityLog user b now d
     = (d', ActivityRoutes.Created log)
     /\ activityLogs d'
        = activityLogs d ++ [ActivityTracker.mk (nextId d) aid week true]
     /\ notifications d' = notifications d)
  /\ exists e,
       SubmissionAlert.sendSubmissionAlertToManager now (snd (filed aid week d))
         (fst (filed aid week d))
       = (fst (filed aid week d), Threw e).
Proof.
  intros Hrole Hvalid Ha Hw Hfind Hown Hnew.
  split; [|eexists; apply sendSubmissionAlertToManager_ledger].
  unfold ActivityRoutes.createActivityLog.
  rewrite Hrole, Hvalid, Ha, Hw, Hfind, Hown, Nat.eqb_refl. cbn [negb].
  rewrite (find_pair_active_none aid week d Hnew).
  unfold ActivityRoutes.create.
  destruct (existsb _ (activityLogs d)) eqn:Hpair.
  { exfalso. apply Hnew, logPairs_existsb, Hpair. }
  rewrite sendSubmissionAlertToManager_ledger.
  eexists _, _. split; [reflexivity|]. split; reflexivity.
Qed.

(** X17, witness: Ann, whose manager and module exist, files week 4;
    the answer is 201, the alert has thrown at [Notification.create], and
    the ledger is empty as before. *)
Lemma createActivityLog_succeeds_though_the_alert_throws_witness :
  snd (ActivityRoutes.createActivityLog Sample.annUser (Fixtures.body 1 4)
         Sample.jan16 Fixtures.dbLogged)
  = ActivityRoutes.Created (Some (ActivityTracker.mk 20 1 4 true))
  /\ SubmissionAlert.sendSubmissionAlertToManager Sample.jan16
       (snd (filed 1 4 Fixtures.dbLogged)) (fst (filed 1 4 Fixtures.dbLogged))
     = (fst (filed 1 4 Fixtures.dbLogged),
        Threw "TypeError: Cannot read properties of undefined (reading 'create')")
  /\ exists log d',
       ActivityRoutes.createActivityLog Sample.annUser (Fixtures.body 1 4)
         Sample.jan16 Fixtures.dbLogged = (d', ActivityRoutes.Created log)
       /\ activityLogs d'
          = activityLogs Fixtures.dbLogged ++ [ActivityTracker.mk 20 1 4 true]
       /\ notifications d' = notifications Fixtures.dbLogged.
Proof.
  split; [reflexivity|]. split; [reflexivity|].
  assert (Hnew : ~ In (1, 4%Z) (logPairs Fixtures.dbLogged)).
  { simpl. intros [H|[H|[]]]; discriminate. }
  exact (proj1 (@createActivityLog_succeeds_though_the_alert_throws
                  Sample.annUser (Fixtures.body 1 4) Sample.jan16 Fixtures.dbLogged
                  1 4%Z (Sample.annAlgebra 0%Z)
                  eq_refl eq_refl eq_refl eq_refl eq_refl eq_refl Hnew)).
Defined.

Lemma find_app_last {A} (f : A -> bool) (l : list A) (x : A) :
  f x = true -> find f (l ++ [x]) <> None.
Proof.
  intros Hx. induction l as [|y l IH]; simpl.
  - rewrite Hx. discriminate.
  - destruct (f y); [discriminate | exact IH].
Qed.

(** X18.  Once [POST /] has answered 201 for an allocation and a week,
    a sweep in that week pushes no intent for that allocation: neither a
    reminder nor an alert. *)
Theorem filed_week_is_not_chased
    (user : Routes.User) (b : ActivityRoutes.Body) (now : Date) (d d' : DB)
    (log : option ActivityTracker.t) (aid : UUID) (tz : Z) (t : Date) :
  ActivityRoutes.createActivityLog user b now d = (d', ActivityRoutes.Created log) ->
  ActivityRoutes.allocationId b = Some (ActivityRoutes.BUuid aid) ->
  ActivityRoutes.weekNumber b
  = Some (ActivityRoutes.BInt (RedisWorker.currentWeek tz t)) ->
  Forall (fun i => RedisWorker.allocationId i <> aid)
         (RedisWorker.checkOverdueLogs tz t d' []).
Proof.
  intros Hcreate Ha Hw.
  apply createActivityLog_created in Hcreate
    as (_ & aid' & week & a & Ha' & Hw' & _ & _ & _ & _ & ->).
  rewrite Ha in Ha'. injection Ha' as <-.
  rewrite Hw in Hw'. injection Hw' as <-.
  set (week := RedisWorker.currentWeek tz t).
  destruct (sendSubmissionAlertToManager_tables now (snd (filed aid week d))
              (fst (filed aid week d))) as [Hlogs Hallocs].
  unfold RedisWorker.checkOverdueLogs. fold week.
  rewrite sweepWeek_pushes, app_nil_r.
  apply Forall_rev, Forall_flat_map, Forall_forall. intros a' _.
  unfold intentsOf.
  destruct (RedisWorker.activityLog _ a' week) eqn:Hlog; [constructor|].
  assert (Hid : CourseAllocation.id a' <> aid).
  { intros Hid. revert Hlog. unfold RedisWorker.activityLog, Sequelize.findOne.
    rewrite Hlogs. cbn [filed fst ActivityRoutes.withActivityLogs activityLogs].
    apply find_app_last. simpl.
    rewrite Hid, Nat.eqb_refl, Z.eqb_refl. reflexivity. }
  destruct (2 <? week)%Z; repeat constructor; simpl; exact Hid.
Qed.

(** X18, witness: Ann files week 3 on 16 January; the sweep of
    17 January, still week 3, pushes nothing for her allocation. *)
Lemma filed_week_is_not_chased_witness :
  RedisWorker.currentWeek 0 Sample.jan17 = 3%Z
  /\ RedisWorker.checkOverdueLogs 0 Sample.jan17 Sample.db1 [] <> []
  /\ Forall (fun i => RedisWorker.allocationId i <> 1)
            (RedisWorker.checkOverdueLogs 0 Sample.jan17
               (fst (ActivityRoutes.createActivityLog Sample.annUser
                       (Fixtures.body 1 3) Sample.jan16 Sample.db1)) []).
Proof.
  split; [vm_compute; reflexivity|]. split; [vm_compute; discriminate|].
  refine (@filed_week_is_not_chased Sample.annUser (Fixtures.body 1 3)
            Sample.jan16 Sample.db1 _ _ 1 0%Z Sample.jan17 _ eq_refl _).
  - vm_compute. reflexivity.
  - vm_compute. reflexivity.
Defined.

(** X19.  [sendSubmissionAlertToManager] throws at every call and
    writes nothing: with the error of the missing row when the allocation
    of the log, its facilitator, the manager of the facilitator or its
    module is missing, and at [Notification.create] when all of them are
    there.  No manager is ever told of a submission. *)
Theorem sendSubmissionAlertToManager_always_throws
    (now : Date) (l : ActivityTracker.t) (d : DB) :
  exists e,
    SubmissionAlert.sendSubmissionAlertToManager now l d = (d, Threw e)
    /\ match SubmissionAlert.getAllocation d l with
       | None => e = SubmissionAlert.nullRead "getFacilitator"
       | Some a =>
           match NotificationService.getFacilitator d a with
           | None => e = SubmissionAlert.nullRead "getManager"
           | Some f =>
               match NotificationService.getManager d f,
                     NotificationService.module_of d a with
               | None, _ => e = SubmissionAlert.nullRead "id"
               | Some _, None => e = SubmissionAlert.nullRead "name"
               | Some _, Some _ =>
                   e = "TypeError: Cannot read properties of undefined (reading 'create')"%string
               end
           end
       end.
Proof.
  eexists. split; [apply sendSubmissionAlertToManager_ledger|].
  unfold SubmissionAlert.submissionSpec.
  destruct (SubmissionAlert.getAllocation d l) as [a|]; [|reflexivity].
  destruct (NotificationService.getFacilitator d a) as [f|]; [|reflexivity].
  destruct (NotificationService.getManager d f) as [m|]; [|reflexivity].
  destruct (NotificationService.module_of d a) as [md|]; reflexivity.
Qed.

Lemma deleteActivityLog_pairs mgr logId d :
  logPairs (fst (ActivityRoutes.deleteActivityLog mgr logId d)) = logPairs d.
Proof.
  unfold ActivityRoutes.deleteActivityLog.
  destruct (Routes.role mgr); [|reflexivity].
  destruct (Sequelize.findOne _ (activityLogs d)); [|reflexivity].
  unfold logPairs. cbn [fst ActivityRoutes.withActivityLogs activityLogs].
  rewrite map_map. apply map_ext. intros l.
  destruct (ActivityTracker.id l =? logId); reflexivity.
Qed.

Lemma createActivityLog_blocked user b now d aid week :
  ActivityRoutes.allocationId b = Some (ActivityRoutes.BUuid aid) ->
  ActivityRoutes.weekNumber b = Some (ActivityRoutes.BInt week) ->
  In (aid, week) (logPairs d) ->
  exists code message,
    ActivityRoutes.createActivityLog user b now d
    = (d, ActivityRoutes.Failed code message)
    /\ In code [400; 403; 404; 409; 500].
Proof.
  intros Ha Hw Hpair.
  destruct (ActivityRoutes.createActivityLog user b now d)
    as [d' [log| |code message]] eqn:E.
  - exfalso. apply createActivityLog_created in E
      as (_ & aid' & week' & a & Ha' & Hw' & _ & _ & _ & Hnew & _).
    rewrite Ha in Ha'. injection Ha' as <-.
    rewrite Hw in Hw'. injection Hw' as <-. exact (Hnew Hpair).
  - exfalso. revert E. unfold ActivityRoutes.createActivityLog.
    repeat match goal with
           | |- context [match ?x with _ => _ end] => destruct x
           | |- context [if ?x then _ else _] => destruct x
           end; discriminate.
  - destruct (createActivityLog_failed _ _ _ _ E) as [-> Hcode]. eauto.
Qed.

(** X20.  While a log row has a pair (allocation, week), [POST /] for
    that pair is refused and changes nothing; and [DELETE /:id] does not
    free the pair: it only clears [isActive], the unique index still holds
    the row, and [POST /] for the pair is refused after it as before. *)
Theorem deleted_log_still_blocks_its_week
    (mgr user : Routes.User) (logId : UUID) (b : ActivityRoutes.Body)
    (now : Date) (d : DB) (l : ActivityTracker.t) :
  In l (activityLogs d) ->
  ActivityRoutes.allocationId b
  = Some (ActivityRoutes.BUuid (ActivityTracker.allocationId l)) ->
  ActivityRoutes.weekNumber b
  = Some (ActivityRoutes.BInt (ActivityTracker.weekNumber l)) ->
  (exists code message,
     ActivityRoutes.createActivityLog user b now d
     = (d, ActivityRoutes.Failed code message)
     /\ In code [400; 403; 404; 409; 500])
  /\ exists code message,
       ActivityRoutes.createActivityLog user b now
         (fst (ActivityRoutes.deleteActivityLog mgr logId d))
       = (fst (ActivityRoutes.deleteActivityLog mgr logId d),
          ActivityRoutes.Failed code message)
       /\ In code [400; 403; 404; 409; 500].
Proof.
  intros Hl Ha Hw.
  assert (Hpair : In (ActivityTracker.allocationId l, ActivityTracker.weekNumber l)
                     (logPairs d)).
  { unfold logPairs. apply in_map_iff. exists l. auto. }
  split.
  - apply (createActivityLog_blocked user b now d Ha Hw Hpair).
  - apply (createActivityLog_blocked user b now _ Ha Hw).
    rewrite deleteActivityLog_pairs. exact Hpair.
Qed.

(** X20, witness: Ann's log of week 3 is deleted by her manager; when
    she files week 3 again the answer is 500. *)
Lemma deleted_log_still_blocks_its_week_witness :
  snd (ActivityRoutes.deleteActivityLog Fixtures.miaUser 10 Fixtures.dbLogged)
  = ActivityRoutes.Deleted
  /\ snd (ActivityRoutes.createActivityLog Sample.annUser (Fixtures.body 1 3)
            Sample.jan16
            (fst (ActivityRoutes.deleteActivityLog Fixtures.miaUser 10
                    Fixtures.dbLogged)))
     = ActivityRoutes.Failed 500 "Internal server error"
  /\ exists code message,
       ActivityRoutes.createActivityLog Sample.annUser (Fixtures.body 1 3)
         Sample.jan16
         (fst (ActivityRoutes.deleteActivityLog Fixtures.miaUser 10
                 Fixtures.dbLogged))
       = (fst (ActivityRoutes.deleteActivityLog Fixtures.miaUser 10
                 Fixtures.dbLogged),
          ActivityRoutes.Failed code message)
       /\ In code [400; 403; 404; 409; 500].
Proof.
  split; [reflexivity|]. split; [reflexivity|].
  exact (proj2 (@deleted_log_still_blocks_its_week Fixtures.miaUser Sample.annUser
                  10 (Fixtures.body 1 3) Sample.jan16 Fixtures.dbLogged
                  Fixtures.week3Log (or_introl eq_refl) eq_refl eq_refl)).
Defined.

(** X21.  No two log rows share a pair (allocation, week): if that holds
    of the table, it holds after [POST /] and after [DELETE /:id],
    whatever they answer. *)
Theorem log_pairs_stay_unique
    (user : Routes.User) (b : ActivityRoutes.Body) (logId : UUID)
    (now : Date) (d : DB) :
  NoDup (logPairs d) ->
  NoDup (logPairs (fst (ActivityRoutes.createActivityLog user b now d)))
  /\ NoDup (logPairs (fst (ActivityRoutes.deleteActivityLog user logId d))).
Proof.
  intros Hd. split; [|rewrite deleteActivityLog_pairs; exact Hd].
  destruct (ActivityRoutes.createActivityLog user b now d)
    as [d' [log| |code message]] eqn:E; cbn [fst].
  - apply createActivityLog_created in E
      as (_ & aid & week & a & _ & _ & _ & _ & _ & Hnew & ->).
    destruct (sendSubmissionAlertToManager_tables now (snd (filed aid week d))
                (fst (filed aid week d))) as [Hlogs _].
    unfold logPairs in *. rewrite Hlogs.
    cbn [filed fst ActivityRoutes.withActivityLogs activityLogs].
    rewrite map_app. simpl.
    apply NoDup_app; [exact Hd | repeat constructor; simpl; tauto |].
    intros p Hp [<-|[]]. exact (Hnew Hp).
  - exfalso. revert E. unfold ActivityRoutes.createActivityLog.
    repeat match goal with
           | |- context [match ?x with _ => _ end] => destruct x
           | |- context [if ?x then _ else _] => destruct x
           end; discriminate.
  - destruct (createActivityLog_failed _ _ _ _ E) as [-> _]. exact Hd.
Qed.

(** X21, witness: the table with Ann's two logs, and Bob filing
    week 3. *)
Lemma log_pairs_stay_unique_witness :
  NoDup (logPairs Fixtures.dbLogged)
  /\ NoDup (logPairs (fst (ActivityRoutes.createActivityLog Fixtures.bobUser
                             (Fixtures.body 2 3) Sample.jan16 Fixtures.dbLogged)))
  /\ NoDup (logPairs (fst (ActivityRoutes.deleteActivityLog Fixtures.bobUser 10
                             Fixtures.dbLogged))).
Proof.
  assert (Hd : NoDup (logPairs Fixtures.dbLogged)).
  { repeat constructor; simpl; intuition discriminate. }
  split; [exact Hd|].
  exact (@log_pairs_stay_unique Fixtures.bobUser (Fixtures.body 2 3) 10
           Sample.jan16 Fixtures.dbLogged Hd).
Defined.

Lemma NoDup_map_injective {A B} (f : A -> B) (l : list A) (x y : A) :
  NoDup (map f l) -> In x l -> In y l -> f x = f y -> x = y.
Proof.
  induction l as [|z l IH]; simpl; [tauto|].
  intros Hnd Hx Hy Hf. inversion Hnd as [|? ? Hnotin Hnd']; subst.
  destruct Hx as [->|Hx], Hy as [->|Hy]; auto.
  - exfalso. apply Hnotin. rewrite Hf. apply in_map. exact Hy.
  - exfalso. apply Hnotin. rewrite <- Hf. apply in_map. exact Hx.
Qed.

(** X22.  When a manager deletes the active log that an allocation has
    for a week, the allocation is without a log for that week again: the
    sweep of that week pushes a reminder for it. *)
Theorem deleting_the_log_reopens_the_week
    (mgr : Routes.User) (d : DB) (l : ActivityTracker.t)
    (a : CourseAllocation.t) (tz : Z) (t : Date) :
  NoDup (logPairs d) ->
  In l (activityLogs d) ->
  ActivityTracker.isActive l = true ->
  Routes.role mgr = manager ->
  In a (allocations d) ->
  CourseAllocation.isActive a = true ->
  CourseAllocation.id a = ActivityTracker.allocationId l ->
  RedisWorker.currentWeek tz t = ActivityTracker.weekNumber l ->
  RedisWorker.activityLog d a (ActivityTracker.weekNumber l) <> None
  /\ snd (ActivityRoutes.deleteActivityLog mgr (ActivityTracker.id l) d)
     = ActivityRoutes.Deleted
  /\ In (RedisWorker.mkIntent RedisWorker.REMINDER_FACILITATOR
           (CourseAllocation.facilitatorId a) None (CourseAllocation.id a)
           (ActivityTracker.weekNumber l) t)
        (RedisWorker.checkOverdueLogs tz t
           (fst (ActivityRoutes.deleteActivityLog mgr (ActivityTracker.id l) d)) []).
Proof.
  intros Hnd Hl Hactive Hrole Ha Hact Hid Hweek.
  split.
  { unfold RedisWorker.activityLog, Sequelize.findOne. intros Hnone.
    pose proof (find_none _ _ Hnone l Hl) as H. cbv beta in H.
    rewrite Hid, Nat.eqb_refl, Z.eqb_refl, Hactive in H. discriminate. }
  unfold ActivityRoutes.deleteActivityLog. rewrite Hrole.
  destruct (Sequelize.findOne _ (activityLogs d)) as [found|] eqn:Hfound.
  2:{ exfalso. pose proof (find_none _ _ Hfound l Hl) as H. cbv beta in H.
      rewrite Nat.eqb_refl, Hactive in H. discriminate. }
  split; [reflexivity|]. cbn [fst].
  match goal with
  | |- In _ (RedisWorker.checkOverdueLogs tz t ?d1 []) => set (d' := d1)
  end.
  assert (Hnone : RedisWorker.activityLog d' a (ActivityTracker.weekNumber l) = None).
  { unfold RedisWorker.activityLog, Sequelize.findOne.
    destruct (find _ (activityLogs d')) as [r'|] eqn:Hfind; [|reflexivity].
    exfalso. apply find_some in Hfind as [Hin H].
    subst d'. cbn [ActivityRoutes.withActivityLogs activityLogs] in Hin.
    apply in_map_iff in Hin as (r & <- & Hr).
    assert (Hpair : (ActivityTracker.allocationId r, ActivityTracker.weekNumber r)
                    = (ActivityTracker.allocationId l, ActivityTracker.weekNumber l)).
    { destruct (ActivityTracker.id r =? ActivityTracker.id l); simpl in H;
        apply andb_prop in H as [H _]; apply andb_prop in H as [H1 H2];
        apply Nat.eqb_eq in H1; apply Z.eqb_eq in H2; congruence. }
    assert (r = l).
    { apply (NoDup_map_injective
               (fun l => (ActivityTracker.allocationId l, ActivityTracker.weekNumber l))
               (activityLogs d)); auto. }
    subst r. rewrite Nat.eqb_refl in H. simpl in H.
    rewrite andb_false_r in H. discriminate. }
  apply (intents_of_active_allocation tz t d' a Ha Hact).
  rewrite Hweek. unfold intentsOf. rewrite Hnone. left. reflexivity.
Qed.

(** X22, witness: Ann's log of week 3; after its deletion the sweep of
    16 January reminds her. *)
Lemma deleting_the_log_reopens_the_week_witness :
  NoDup (logPairs Fixtures.dbLogged)
  /\ RedisWorker.currentWeek 0 Sample.jan16 = 3%Z
  /\ RedisWorker.activityLog Fixtures.dbLogged (Sample.annAlgebra 0%Z) 3 <> None
  /\ In (RedisWorker.mkIntent RedisWorker.REMINDER_FACILITATOR 1 None 1 3
           Sample.jan16)
        (RedisWorker.checkOverdueLogs 0 Sample.jan16
           (fst (ActivityRoutes.deleteActivityLog Fixtures.miaUser 10
                   Fixtures.dbLogged)) []).
Proof.
  assert (Hd : NoDup (logPairs Fixtures.dbLogged)).
  { repeat constructor; simpl; intuition discriminate. }
  assert (Hweek : RedisWorker.currentWeek 0 Sample.jan16 = 3%Z)
    by (vm_compute; reflexivity).
  destruct (@deleting_the_log_reopens_the_week Fixtures.miaUser Fixtures.dbLogged
              Fixtures.week3Log (Sample.annAlgebra 0%Z) 0%Z Sample.jan16
              Hd (or_introl eq_refl) eq_refl eq_refl (or_introl eq_refl)
              eq_refl eq_refl Hweek)
    as (Hbefore & _ & Hafter).
  split; [exact Hd|]. split; [exact Hweek|].
  split; [exact Hbefore | exact Hafter].
Defined.

(** ** The ledger sweep of the program *)

(** X24.  The ledger sweep of the program never writes the database.
    Its first piece of work fails, at the argument or at
    [Notification.create], and that error is the last line of its
    console; it reports completion exactly when it had nothing to do: no
    allocation due a reminder and none older than seven days. *)
Theorem ledger_sweep_writes_nothing (now : Date) (d : DB) :
  fst (NotificationWorker.checkForNotifications Models.Notification now d) = d
  /\ last (snd (NotificationWorker.checkForNotifications Models.Notification now d))
          NotificationWorker.Checking
     = match work now d with
       | [] => NotificationWorker.CheckCompleted
       | w :: _ =>
           NotificationWorker.WorkerError
             match snd w with
             | Threw e => e
             | Returned _ =>
                 "TypeError: Cannot read properties of undefined (reading 'create')"%string
             end
       end
  /\ (work now d = []
      <-> remindersDue d = [] /\ NotificationWorker.overdueAllocations now d = []).
Proof.
  pose proof (checkForNotifications_carries Models.Notification now d
                (notifications d) (nextId d)) as (Hdb & Hlast & _).
  rewrite withNotifications_self in Hdb, Hlast.
  change Models.Notification with Models.Unbound in *.
  rewrite carryOut_unbound in Hdb. rewrite app_nil_r, Nat.add_0_r in Hdb.
  rewrite withNotifications_self in Hdb.
  split; [exact Hdb|]. split.
  - rewrite Hlast.
    destruct (work now d) as [|[a [s|e]] rest]; reflexivity.
  - unfold work. split.
    + intros H. apply app_eq_nil in H as [H1 H2].
      apply map_eq_nil in H1. apply map_eq_nil in H2. auto.
    + intros [-> ->]. reflexivity.
Qed.
